(** * Idea2Prompt: a shallow embedding of [server.js]

    The server is an Express application with seven JSON endpoints
    (health, test-gemini, register, login, generate-prompt, list
    prompts, delete prompt), one authentication middleware and one error
    middleware.  Everything it
    does goes through four external services: the MySQL pool ([db.query]),
    bcrypt, jsonwebtoken and [fetch] towards the Gemini endpoint.

    Modelling choices, all visible in the definitions below:
    - a JavaScript string is the list of its UTF-16 code units;
    - a JSON field of a request body is absent, [null] or a string
      (numbers, booleans and nested values in a request are outside the
      model; the theorems name the string fields they are about);
    - the database is three tables (lists of rows in insertion order)
      with their AUTO_INCREMENT counters;
    - a handler is a computation in a state-and-exception monad over the
      database and the trace of effects it performed (every [db.query]
      and every [fetch] is recorded); it runs to completion: what other
      requests do between two awaits of a handler is not represented, so
      a statement about several requests is about requests served one
      after the other;
    - whether a query fails, what the upstream endpoint answers, the
      clock and the salt entropy are inputs of a request ([Env]);
    - the libraries are an interface ([Platform]): the compact
      serialisation of a signed token, bcrypt, the comparisons that
      MySQL applies to text and integer columns, and two services of the
      JavaScript engine (the ISO rendering of a date and the TypeError
      of a call to a missing method). *)

From Stdlib Require Import List Bool PeanoNat NArith String Ascii Lia.
From Stdlib Require Import Permutation Sorted QArith DecimalString.
Import ListNotations.

Local Open Scope N_scope.
Local Open Scope list_scope.

(* ------------------------------------------------------------------ *)
(** ** JavaScript strings and values *)

Definition jstring := list N.

(** The code units of an ASCII literal of the source. *)
Definition js (s : string) : jstring :=
  map N_of_ascii (list_ascii_of_string s).

Definition dquote : jstring := [34].
Definition newline : jstring := [10].

Fixpoint jstring_eqb (a b : jstring) : bool :=
  match a, b with
  | [], [] => true
  | x :: a', y :: b' => (x =? y) && jstring_eqb a' b'
  | _, _ => false
  end.

(** WhiteSpace and LineTerminator code points of ECMAScript: what
    [String.prototype.trim] removes. *)
Definition is_js_space (c : N) : bool :=
  (c =? 9) || (c =? 10) || (c =? 11) || (c =? 12) || (c =? 13) ||
  (c =? 32) || (c =? 160) || (c =? 5760) ||
  ((8192 <=? c) && (c <=? 8202)) ||
  (c =? 8232) || (c =? 8233) || (c =? 8239) || (c =? 8287) ||
  (c =? 12288) || (c =? 65279).

Fixpoint trimStart (s : jstring) : jstring :=
  match s with
  | [] => []
  | c :: r => if is_js_space c then trimStart r else s
  end.

Definition trimEnd (s : jstring) : jstring := rev (trimStart (rev s)).

Definition trim (s : jstring) : jstring := trimEnd (trimStart s).

(** [s.split(sep)] for a one-unit separator: never the empty list. *)
Fixpoint split (sep : N) (s : jstring) : list jstring :=
  match s with
  | [] => [[]]
  | c :: r =>
      if c =? sep then [] :: split sep r
      else match split sep r with
           | h :: t => (c :: h) :: t
           | [] => [[c]]
           end
  end.

(** Decimal rendering of a number inside a template literal. *)
Definition decimal (n : N) : jstring :=
  js (NilEmpty.string_of_uint (N.to_uint n)).

(** The values a JSON body field takes in this model. *)
Inductive JsVal :=
| JUndefined
| JNull
| JStr (s : jstring).

(** ToBoolean. *)
Definition truthy (v : JsVal) : bool :=
  match v with
  | JStr (_ :: _) => true
  | _ => false
  end.

(** [v || d] where [d] is a string literal. *)
Definition or_default (v : JsVal) (d : jstring) : jstring :=
  match v with
  | JStr (c :: r) => c :: r
  | _ => d
  end.

(** [v.trim()] once [!v] has been excluded. *)
Definition trim_val (v : JsVal) : jstring :=
  match v with
  | JStr s => trim s
  | _ => []
  end.

(** JSON documents sent with [res.json]. *)
#[local] Unset Elimination Schemes.
Inductive Json :=
| JsonNull
| JsonBool (b : bool)
| JsonNum (n : N)
| JsonStr (s : jstring)
| JsonArr (l : list Json)
| JsonObj (fields : list (string * Json)).
#[local] Set Elimination Schemes.

Record Response := { status : N; body : Json }.

Record JsError := { message : jstring }.

(** [res.status(c).json({ error: m })]. *)
Definition error_response (c : N) (m : string) : Response :=
  {| status := c; body := JsonObj [("error"%string, JsonStr (js m))] |}.

(* ------------------------------------------------------------------ *)
(** ** The libraries the server calls *)

(** The payload of a token: the two claims the server signs, and the
    [iat] and [exp] that jsonwebtoken adds (seconds since the epoch). *)
Record Claims := {
  userId : N;
  username : jstring;
  iat : N;
  exp : N
}.

(** What the model needs from jsonwebtoken's compact serialisation, from
    bcrypt, from MySQL's comparison operators and from the engine.
    - [jws_encode c k] is the three-part base64url string signed with [k];
    - [jws_decode t k] parses [t] and checks its signature against [k]
      ([None]: malformed, or signed with something else);
    - [bcrypt_hash data rounds entropy] and [bcrypt_compare data hash];
    - [sql_text_eq param column] is [=] on a text column under the
      collation of the table, [sql_id_eq param column] is [=] between
      the string parameter of a route and an integer column;
    - [toISOString ms] is [new Date(ms).toISOString()];
    - [not_a_function] is the TypeError raised when [.trim()] is called
      on a value that is not a string. *)
Class Platform := {
  jws_encode : Claims -> jstring -> jstring;
  jws_decode : jstring -> jstring -> option Claims;
  jws_decode_encode :
    forall c k, jws_decode (jws_encode c k) k = Some c;
  jws_compact :
    forall c k, jws_encode c k <> [] /\ ~ In 32 (jws_encode c k);
  bcrypt_hash : jstring -> N -> jstring -> jstring;
  bcrypt_compare : jstring -> jstring -> bool;
  sql_text_eq : jstring -> jstring -> bool;
  sql_id_eq : jstring -> N -> bool;
  toISOString : N -> jstring;
  not_a_function : JsError
}.

(* ------------------------------------------------------------------ *)
(** ** The database *)

(** Modelled from the spec: the schema file of the repository is not
    among the sources; section 6 of the specification gives the columns
    [registered_users(id, username, email, password_hash)],
    [prompts(id, user_id, category, idea, generated_prompt, created_at)]
    and [login_history(id, user_id, success, created_at)].  [id] is
    assigned by the table counter and [created_at] by the clock of the
    insertion, in seconds. *)
Record UserRow := {
  user_id_col : N;
  user_username : jstring;
  user_email : jstring;
  user_password_hash : jstring
}.

Record PromptRow := {
  prompt_id : N;
  prompt_user_id : N;
  prompt_category : jstring;
  prompt_idea : jstring;
  prompt_generated : jstring;
  prompt_created_at : N
}.

Record LoginRow := {
  login_id : N;
  login_user_id : N;
  login_success : bool;
  login_created_at : N
}.

Record Db := {
  registered_users : list UserRow;
  registered_users_next : N;
  prompts : list PromptRow;
  prompts_next : N;
  login_history : list LoginRow;
  login_history_next : N
}.

(** The seven statements of the source with their bound parameters. *)
Inductive Query :=
| checkUserQuery (email uname : jstring)
| insertUserQuery (uname email passwordHash : jstring)
| selectUserQuery (email : jstring)
| logQuery (uid : N) (success : bool)
| insertPromptQuery (uid : N) (category idea generated : jstring)
| selectPromptsQuery (uid : N)
| deletePromptQuery (id : jstring) (uid : N).

(** The header [db.query] resolves to for INSERT and DELETE. *)
Record ResultSetHeader := { insertId : N; affectedRows : N }.

(** What a statement yields: rows for SELECT, a header otherwise. *)
Definition result_of (q : Query) : Type :=
  match q with
  | checkUserQuery _ _ => list N
  | selectUserQuery _ => list UserRow
  | selectPromptsQuery _ => list PromptRow
  | insertUserQuery _ _ _ | logQuery _ _ | insertPromptQuery _ _ _ _
  | deletePromptQuery _ _ => ResultSetHeader
  end.

(** ORDER BY created_at DESC, rows of equal time kept in table order. *)
Fixpoint insert_desc (p : PromptRow) (l : list PromptRow) : list PromptRow :=
  match l with
  | [] => [p]
  | q :: r =>
      if prompt_created_at q <=? prompt_created_at p then p :: l
      else q :: insert_desc p r
  end.

Definition order_by_created_at_desc (l : list PromptRow) : list PromptRow :=
  fold_right insert_desc [] l.

Section Sql.
Context {P : Platform}.

(** WHERE email = ? OR username = ? *)
Definition check_user_where (email uname : jstring) (u : UserRow) : bool :=
  sql_text_eq email (user_email u) || sql_text_eq uname (user_username u).

(** WHERE email = ? *)
Definition select_user_where (email : jstring) (u : UserRow) : bool :=
  sql_text_eq email (user_email u).

(** WHERE user_id = ? *)
Definition select_prompts_where (uid : N) (p : PromptRow) : bool :=
  prompt_user_id p =? uid.

(** WHERE id = ? AND user_id = ? *)
Definition delete_prompt_where (id : jstring) (uid : N) (p : PromptRow) : bool :=
  sql_id_eq id (prompt_id p) && (prompt_user_id p =? uid).

(** The effect of a statement that does not fail, at clock [seconds]. *)
Definition exec (seconds : N) (q : Query) (d : Db) : result_of q * Db :=
  match q return result_of q * Db with
  | checkUserQuery email uname =>
      (map user_id_col
           (filter (check_user_where email uname) (registered_users d)), d)
  | insertUserQuery uname email passwordHash =>
      let id := registered_users_next d in
      ({| insertId := id; affectedRows := 1 |},
       {| registered_users :=
            registered_users d ++
            [{| user_id_col := id; user_username := uname;
                user_email := email; user_password_hash := passwordHash |}];
          registered_users_next := id + 1;
          prompts := prompts d; prompts_next := prompts_next d;
          login_history := login_history d;
          login_history_next := login_history_next d |})
  | selectUserQuery email =>
      (filter (select_user_where email) (registered_users d), d)
  | logQuery uid success =>
      let id := login_history_next d in
      ({| insertId := id; affectedRows := 1 |},
       {| registered_users := registered_users d;
          registered_users_next := registered_users_next d;
          prompts := prompts d; prompts_next := prompts_next d;
          login_history :=
            login_history d ++
            [{| login_id := id; login_user_id := uid;
                login_success := success; login_created_at := seconds |}];
          login_history_next := id + 1 |})
  | insertPromptQuery uid category idea generated =>
      let id := prompts_next d in
      ({| insertId := id; affectedRows := 1 |},
       {| registered_users := registered_users d;
          registered_users_next := registered_users_next d;
          prompts :=
            prompts d ++
            [{| prompt_id := id; prompt_user_id := uid;
                prompt_category := category; prompt_idea := idea;
                prompt_generated := generated;
                prompt_created_at := seconds |}];
          prompts_next := id + 1;
          login_history := login_history d;
          login_history_next := login_history_next d |})
  | selectPromptsQuery uid =>
      (order_by_created_at_desc
         (filter (select_prompts_where uid) (prompts d)), d)
  | deletePromptQuery id uid =>
      let hit := delete_prompt_where id uid in
      ({| insertId := 0;
          affectedRows := N.of_nat (List.length (filter hit (prompts d))) |},
       {| registered_users := registered_users d;
          registered_users_next := registered_users_next d;
          prompts := filter (fun p => negb (hit p)) (prompts d);
          prompts_next := prompts_next d;
          login_history := login_history d;
          login_history_next := login_history_next d |})
  end.
End Sql.

(* ------------------------------------------------------------------ *)
(** ** The generation endpoint *)

Record GenerationConfig := {
  temperature : Q;
  topK : N;
  topP : Q;
  maxOutputTokens : N
}.

Record TextPart := { text : jstring }.
Record Content := { parts : list TextPart }.

Record GenerateContentRequest := {
  contents : list Content;
  generationConfig : GenerationConfig
}.

Record FetchRequest := {
  url : jstring;
  method : jstring;
  content_type : jstring;
  request_body : GenerateContentRequest
}.

(** The envelope [response.json()] resolves to; every level may be
    missing, which is what the optional chaining of the source guards.
    The text of a part is any JSON value, or absent. *)
Record ReplyPart := { reply_text : option Json }.
Record ReplyContent := { reply_parts : option (list ReplyPart) }.
Record Candidate := { candidate_content : option ReplyContent }.
Record GeminiData := {
  candidates : option (list Candidate);
  usageMetadata : option Json
}.

(** What [fetch] does: reject, or resolve to a response with a status,
    a raw text and the outcome of parsing that text as JSON ([inl]: the
    parser throws; [inr None]: the document is [null]). *)
Inductive FetchReply :=
| FetchRejects (e : JsError)
| FetchResolves (code : N) (raw : jstring) (json : JsError + option GeminiData).

(** [response.ok]. *)
Definition response_ok (code : N) : bool := (200 <=? code) && (code <=? 299).

(* ------------------------------------------------------------------ *)
(** ** Requests, environment, effects *)

Record Request := {
  authorization : option jstring;
  req_body : list (string * JsVal);
  params_id : jstring
}.

(** Destructuring [const { k } = req.body]. *)
Fixpoint field (b : list (string * JsVal)) (k : string) : JsVal :=
  match b with
  | [] => JUndefined
  | (k', v) :: r => if String.eqb k' k then v else field r k
  end.

Record Env := {
  JWT_SECRET : JsVal;
  GEMINI_API_KEY : jstring;
  NODE_ENV : JsVal;
  Date_now : N;
  salt_entropy : jstring;
  db_fault : Query -> option JsError;
  fetch : FetchRequest -> FetchReply
}.

Inductive Event :=
| EvQuery (q : Query)
| EvFetch (r : FetchRequest).

Record World := { db : Db; effects : list Event }.

(** Completion of an [async] body: a value, or a thrown error. *)
Inductive Completion (A : Type) :=
| Normal (a : A)
| Thrown (e : JsError).
Arguments Normal {A} a.
Arguments Thrown {A} e.

Definition M (A : Type) : Type := World -> Completion A * World.

Definition ret {A} (a : A) : M A := fun w => (Normal a, w).

Definition throw {A} (e : JsError) : M A := fun w => (Thrown e, w).

Definition bind {A B} (c : M A) (k : A -> M B) : M B :=
  fun w =>
    match c w with
    | (Normal a, w') => k a w'
    | (Thrown e, w') => (Thrown e, w')
    end.

(** [try { c } catch (error) { h error }]. *)
Definition try_catch {A} (c : M A) (h : JsError -> M A) : M A :=
  fun w =>
    match c w with
    | (Normal a, w') => (Normal a, w')
    | (Thrown e, w') => h e w'
    end.

Declare Scope js_scope.
Delimit Scope js_scope with js.
Notation "x <- c ;; k" := (bind c (fun x => k))
  (at level 61, c at next level, right associativity) : js_scope.
Notation "c ;;; k" := (bind c (fun _ => k))
  (at level 61, right associativity) : js_scope.

Definition record_event (ev : Event) (w : World) : World :=
  {| db := db w; effects := effects w ++ [ev] |}.

(** The string a value is, where the source has already excluded
    [undefined] and [null] with a [!v] test. *)
Definition str (v : JsVal) : jstring :=
  match v with
  | JStr s => s
  | _ => []
  end.

(* ------------------------------------------------------------------ *)
(** ** jsonwebtoken *)

Inductive VerifyError :=
| JsonWebTokenError
| TokenExpiredError.

(** [ms("24h") / 1000]. *)
Definition expiresIn_24h : N := 86400.

Section Jwt.
Context {P : Platform}.

(** [jwt.sign({ userId, username }, secret, { expiresIn: "24h" })] at
    clock [now] (milliseconds): refuses a missing or empty secret. *)
Definition jwt_sign (uid : N) (uname : jstring) (secret : JsVal) (now : N)
  : JsError + jstring :=
  match secret with
  | JStr (c :: k) =>
      let timestamp := now / 1000 in
      inr (jws_encode {| userId := uid; username := uname;
                         iat := timestamp;
                         exp := timestamp + expiresIn_24h |} (c :: k))
  | _ => inl {| message := js "secretOrPrivateKey must have a value" |}
  end.

(** [jwt.verify(token, secret, callback)]: the callback receives an
    error when the token does not parse, when its signature does not
    match, or when [clockTimestamp >= payload.exp]. *)
Definition jwt_verify (token : jstring) (secret : JsVal) (now : N)
  : VerifyError + Claims :=
  match secret with
  | JStr (c :: k) =>
      match jws_decode token (c :: k) with
      | None => inl JsonWebTokenError
      | Some payload =>
          if exp payload <=? now / 1000 then inl TokenExpiredError
          else inr payload
      end
  | _ => inl JsonWebTokenError
  end.
End Jwt.

(* ------------------------------------------------------------------ *)
(** ** server.js *)

Definition SALT_ROUNDS : N := 10.

Definition GEMINI_API_URL : jstring :=
  js "https://generativelanguage.googleapis.com/v1beta/models/gemini-1.5-flash-latest:generateContent".

Local Open Scope js_scope.

Section Server.
Context {P : Platform}.
Variable env : Env.

(** [await db.query(q, params)]. *)
Definition db_query (q : Query) : M (result_of q) :=
  fun w =>
    let w1 := record_event (EvQuery q) w in
    match db_fault env q with
    | Some e => (Thrown e, w1)
    | None =>
        let (r, d) := exec (Date_now env / 1000) q (db w1) in
        (Normal r, {| db := d; effects := effects w1 |})
    end.

(** [db.query(q, params).catch(logErr => console.error(...))], not
    awaited: the statement is issued and its failure only logged. *)
Definition db_query_detached (q : Query) : M unit :=
  try_catch (db_query q ;;; ret tt) (fun logErr => ret tt).

(** [await fetch(url, options)]. *)
Definition fetch_call (r : FetchRequest)
  : M (N * jstring * (JsError + option GeminiData)) :=
  fun w =>
    let w1 := record_event (EvFetch r) w in
    match fetch env r with
    | FetchRejects e => (Thrown e, w1)
    | FetchResolves code raw json => (Normal (code, raw, json), w1)
    end.

Definition lift {A} (r : JsError + A) : M A :=
  match r with
  | inl e => throw e
  | inr a => ret a
  end.

(** --- AUTH MIDDLEWARE --- *)

(** [authHeader && authHeader.split(" ")[1]]. *)
Definition header_token (authHeader : option jstring) : JsVal :=
  match authHeader with
  | None => JUndefined
  | Some [] => JStr []
  | Some h =>
      match nth_error (split 32 h) 1 with
      | Some t => JStr t
      | None => JUndefined
      end
  end.

(** Either the response that ends the request, or the claims stored
    in [req.user] before [next()]. *)
Definition authenticateToken (req : Request) : Response + Claims :=
  let token := header_token (authorization req) in
  if negb (truthy token) then
    inl (error_response 401 "Access token required")
  else
    match jwt_verify (str token) (JWT_SECRET env) (Date_now env) with
    | inl err => inl (error_response 403 "Invalid or expired token")
    | inr user => inr user
    end.

(** --- User Registration --- *)
Definition register (req : Request) : M Response :=
  let username := field (req_body req) "username" in
  let email := field (req_body req) "email" in
  let password := field (req_body req) "password" in
  if negb (truthy username) || negb (truthy email) || negb (truthy password)
  then ret (error_response 400 "All fields are required")
  else
    try_catch
      (existingUsers <- db_query (checkUserQuery (str email) (str username)) ;;
       if Nat.ltb 0 (List.length existingUsers) then
         ret (error_response 400 "Email or username already exists")
       else
         let passwordHash :=
           bcrypt_hash (str password) SALT_ROUNDS (salt_entropy env) in
         result <- db_query
                     (insertUserQuery (str username) (str email) passwordHash) ;;
         token <- lift (jwt_sign (insertId result) (str username)
                                 (JWT_SECRET env) (Date_now env)) ;;
         ret {| status := 201;
                body := JsonObj
                  [("message"%string, JsonStr (js "User registered successfully"));
                   ("token"%string, JsonStr token);
                   ("user"%string, JsonObj
                      [("id"%string, JsonNum (insertId result));
                       ("username"%string, JsonStr (str username));
                       ("email"%string, JsonStr (str email))])] |})
      (fun error => ret (error_response 500 "Server error during registration")).

(** --- User Login --- *)
Definition login (req : Request) : M Response :=
  let email := field (req_body req) "email" in
  let password := field (req_body req) "password" in
  if negb (truthy email) || negb (truthy password)
  then ret (error_response 400 "Email and password are required")
  else
    try_catch
      (results <- db_query (selectUserQuery (str email)) ;;
       match results with
       | [] => ret (error_response 401 "Invalid credentials")
       | user :: _ =>
           let validPassword :=
             bcrypt_compare (str password) (user_password_hash user) in
           db_query_detached (logQuery (user_id_col user) validPassword) ;;;
           if negb validPassword then
             ret (error_response 401 "Invalid credentials")
           else
             token <- lift (jwt_sign (user_id_col user) (user_username user)
                                     (JWT_SECRET env) (Date_now env)) ;;
             ret {| status := 200;
                    body := JsonObj
                      [("message"%string, JsonStr (js "Login successful"));
                       ("token"%string, JsonStr token);
                       ("user"%string, JsonObj
                          [("id"%string, JsonNum (user_id_col user));
                           ("username"%string, JsonStr (user_username user));
                           ("email"%string, JsonStr (user_email user))])] |}
       end)
      (fun error => ret (error_response 500 "Server error during login")).

(** --- Gemini API Function --- *)

Definition metaPrompt (idea category : jstring) : jstring :=
  newline ++
  js "You are an expert prompt engineer. Your task is to generate a clear, detailed, and actionable AI prompt based on the user's input." ++
  newline ++ newline ++
  js "Category: " ++ dquote ++ category ++ dquote ++ newline ++
  js "User's Idea: " ++ dquote ++ idea ++ dquote ++ newline ++
  newline ++
  js "Create a comprehensive prompt that an AI assistant can use to provide the best possible response. The prompt should be specific and well-structured." ++
  newline ++ newline ++
  js "Generated Prompt:".

Definition requestBody (idea category : jstring) : GenerateContentRequest :=
  {| contents := [{| parts := [{| text := metaPrompt idea category |}] |}];
     generationConfig :=
       {| temperature := 7 # 10;
          topK := 40;
          topP := 95 # 100;
          maxOutputTokens := 1024 |} |}.

Definition gemini_request (idea category : jstring) : FetchRequest :=
  {| url := GEMINI_API_URL ++ js "?key=" ++ GEMINI_API_KEY env;
     method := js "POST";
     content_type := js "application/json";
     request_body := requestBody idea category |}.

(** [data?.candidates?.[0]?.content?.parts?.[0]?.text]; [None] is
    [undefined]. *)
Definition first_part_text (data : option GeminiData) : option Json :=
  match data with
  | None => None
  | Some d =>
      match candidates d with
      | None => None
      | Some cs =>
          match nth_error cs 0 with
          | None => None
          | Some c =>
              match candidate_content c with
              | None => None
              | Some ct =>
                  match reply_parts ct with
                  | None => None
                  | Some ps =>
                      match nth_error ps 0 with
                      | None => None
                      | Some p => reply_text p
                      end
                  end
              end
          end
      end
  end.

(** [t?.trim()]: [undefined] for [undefined] and [null], the trimmed
    string for a string, a TypeError for any other value. *)
Definition optional_trim (t : option Json) : JsError + option jstring :=
  match t with
  | None => inr None
  | Some JsonNull => inr None
  | Some (JsonStr s) => inr (Some (trim s))
  | Some _ => inl not_a_function
  end.

(** [data?.candidates?.[0]?.content?.parts?.[0]?.text?.trim()]. *)
Definition first_text (data : option GeminiData) : JsError + option jstring :=
  optional_trim (first_part_text data).

Definition generateAIPrompt (idea category : jstring) : M jstring :=
  try_catch
    (response <- fetch_call (gemini_request idea category) ;;
     let '(code, raw, json) := response in
     if negb (response_ok code) then
       throw {| message := js "Gemini API request failed: " ++ decimal code |}
     else
       data <- lift json ;;
       generatedText <- lift (first_text data) ;;
       match generatedText with
       | Some (c :: t) => ret (c :: t)
       | _ => throw {| message := js "No valid response generated from Gemini API" |}
       end)
    (fun error => throw error).

(** --- Generate Prompt API Route (Protected) --- *)
Definition generate_prompt (user : Claims) (req : Request) : M Response :=
  let idea := field (req_body req) "idea" in
  let category := field (req_body req) "category" in
  if negb (truthy idea) || Nat.eqb (List.length (trim_val idea)) 0
  then ret (error_response 400 "Idea is required and cannot be empty")
  else
    try_catch
      (generatedPrompt <- generateAIPrompt (trim_val idea)
                            (or_default category (js "General")) ;;
       result <- db_query
                   (insertPromptQuery (userId user)
                      (or_default category (js "General"))
                      (trim_val idea) generatedPrompt) ;;
       ret {| status := 200;
              body := JsonObj
                [("success"%string, JsonBool true);
                 ("id"%string, JsonNum (insertId result));
                 ("prompt"%string, JsonStr generatedPrompt)] |})
      (fun error =>
         ret {| status := 500;
                body := JsonObj
                  [("error"%string, JsonStr (js "Failed to generate prompt"));
                   ("details"%string, JsonStr (message error))] |}).

(** A row of [prompts] as [res.json] sends it. *)
Definition prompt_json (p : PromptRow) : Json :=
  JsonObj
    [("id"%string, JsonNum (prompt_id p));
     ("user_id"%string, JsonNum (prompt_user_id p));
     ("category"%string, JsonStr (prompt_category p));
     ("idea"%string, JsonStr (prompt_idea p));
     ("generated_prompt"%string, JsonStr (prompt_generated p));
     ("created_at"%string, JsonNum (prompt_created_at p))].

(** --- Get User Prompts API Route (Protected) --- *)
Definition get_prompts (user : Claims) (req : Request) : M Response :=
  try_catch
    (results <- db_query (selectPromptsQuery (userId user)) ;;
     ret {| status := 200; body := JsonArr (map prompt_json results) |})
    (fun error => ret (error_response 500 "Failed to fetch prompts")).

(** --- Delete Prompt API Route (Protected) --- *)
Definition delete_prompt (user : Claims) (req : Request) : M Response :=
  try_catch
    (result <- db_query (deletePromptQuery (params_id req) (userId user)) ;;
     if affectedRows result =? 0 then
       ret (error_response 404 "Prompt not found or user not authorized")
     else
       ret {| status := 200;
              body := JsonObj
                [("message"%string,
                  JsonStr (js "Prompt deleted successfully"))] |})
    (fun error => ret (error_response 500 "Failed to delete prompt")).

(** --- ERROR HANDLING MIDDLEWARE ---
    Reached through [next(err)] only; no handler above calls it. *)
Definition error_middleware (err : JsError) : Response :=
  {| status := 500;
     body := JsonObj
       [("error"%string, JsonStr (js "Internal server error"));
        ("message"%string,
         JsonStr (match NODE_ENV env with
                  | JStr m => if jstring_eqb m (js "development")
                              then message err
                              else js "Something went wrong"
                  | _ => js "Something went wrong"
                  end))] |}.

(** --- Health Check Route --- *)
Definition health (req : Request) : M Response :=
  ret {| status := 200;
         body := JsonObj
           [("status"%string, JsonStr (js "OK"));
            ("server"%string, JsonStr (js "idea2prompt"));
            ("timestamp"%string, JsonStr (toISOString (Date_now env)));
            ("endpoints"%string, JsonObj
               [("auth"%string,
                 JsonArr [JsonStr (js "/api/register");
                          JsonStr (js "/api/login")]);
                ("prompts"%string,
                 JsonArr [JsonStr (js "/api/generate-prompt");
                          JsonStr (js "/api/prompts");
                          JsonStr (js "/api/prompts/:id")]);
                ("test"%string,
                 JsonArr [JsonStr (js "/api/test-gemini");
                          JsonStr (js "/api/health")])])] |}.

(** --- Test Gemini API Route --- *)

Definition testPrompt : jstring := js "What is artificial intelligence?".

Definition test_request : FetchRequest :=
  {| url := GEMINI_API_URL ++ js "?key=" ++ GEMINI_API_KEY env;
     method := js "POST";
     content_type := js "application/json";
     request_body :=
       {| contents := [{| parts := [{| text := testPrompt |}] |}];
          generationConfig :=
            {| temperature := 7 # 10;
               topK := 40;
               topP := 95 # 100;
               maxOutputTokens := 512 |} |} |}.

(** ToBoolean of a JSON value. *)
Definition json_truthy (j : Json) : bool :=
  match j with
  | JsonNull => false
  | JsonBool b => b
  | JsonNum n => negb (n =? 0)
  | JsonStr [] => false
  | JsonStr (_ :: _) => true
  | JsonArr _ => true
  | JsonObj _ => true
  end.

(** [data.usageMetadata || "Usage data not available"], evaluated once a
    text has been found in [data], which is then not [null]. *)
Definition usage_of (data : option GeminiData) : Json :=
  match data with
  | Some d =>
      match usageMetadata d with
      | Some j => if json_truthy j then j
                  else JsonStr (js "Usage data not available")
      | None => JsonStr (js "Usage data not available")
      end
  | None => JsonStr (js "Usage data not available")
  end.

Definition test_gemini (req : Request) : M Response :=
  try_catch
    (response <- fetch_call test_request ;;
     let '(code, raw, json) := response in
     if negb (response_ok code) then
       throw {| message := js "Gemini API request failed: " ++ decimal code |}
     else
       data <- lift json ;;
       generatedText <- lift (first_text data) ;;
       match generatedText with
       | Some (c :: t) =>
           ret {| status := 200;
                  body := JsonObj
                    [("success"%string, JsonBool true);
                     ("message"%string,
                      JsonStr (js "Gemini API connection successful"));
                     ("testPrompt"%string, JsonStr testPrompt);
                     ("response"%string, JsonStr (c :: t));
                     ("usage"%string, usage_of data);
                     ("timestamp"%string,
                      JsonStr (toISOString (Date_now env)))] |}
       | _ => throw {| message := js "No valid response generated from Gemini API" |}
       end)
    (fun error =>
       ret {| status := 500;
              body := JsonObj
                [("success"%string, JsonBool false);
                 ("error"%string, JsonStr (js "Gemini API test failed"));
                 ("details"%string, JsonStr (message error));
                 ("timestamp"%string,
                  JsonStr (toISOString (Date_now env)))] |}).

(** A route behind [authenticateToken]. *)
Definition protected (handler : Claims -> Request -> M Response)
           (req : Request) : M Response :=
  match authenticateToken req with
  | inl res => ret res
  | inr user => handler user req
  end.

(** The API routes of the application.  The two page routes and the
    static files only send files of the repository and the last
    middleware only answers 404; none of them reaches the database or
    the generation endpoint. *)
Inductive Route :=
| GET_health
| GET_test_gemini
| POST_register
| POST_login
| POST_generate_prompt
| GET_prompts
| DELETE_prompt.

Definition app (r : Route) (req : Request) : M Response :=
  match r with
  | GET_health => health req
  | GET_test_gemini => test_gemini req
  | POST_register => register req
  | POST_login => login req
  | POST_generate_prompt => protected generate_prompt req
  | GET_prompts => protected get_prompts req
  | DELETE_prompt => protected delete_prompt req
  end.
End Server.

(** Which routes are mounted behind the middleware. *)
Definition is_protected (r : Route) : bool :=
  match r with
  | POST_generate_prompt | GET_prompts | DELETE_prompt => true
  | _ => false
  end.

(** Requests served one after the other, each to completion before the
    next starts, each with its own clock, entropy and answers of the
    outside: the world a request leaves is the world the next one
    finds. *)
Fixpoint serve_in_turn {P : Platform}
         (requests : list (Env * Route * Request)) (w : World) : World :=
  match requests with
  | [] => w
  | (env, r, req) :: rest => serve_in_turn rest (snd (app env r req w))
  end.

(* ------------------------------------------------------------------ *)
(** ** A reference instance of the libraries

    Small executable stand-ins, used to run the model on concrete
    requests: the token is its payload and key written out with every
    unit shifted above the space character, the hash is the salt
    followed by the data, text columns compare unit by unit, an integer
    column compares with its decimal spelling, and a date is rendered as
    its count of milliseconds. *)

Module Reference.

Definition shift (x : N) : N := x + 33.
Definition unshift (x : N) : N := x - 33.

Definition encode (c : Claims) (k : jstring) : jstring :=
  map shift
      ([userId c; iat c; exp c; N.of_nat (List.length (username c))]
         ++ username c ++ k).

Definition decode (t k : jstring) : option Claims :=
  if forallb (fun x => 33 <=? x) t then
    match map unshift t with
    | uid :: i :: e :: n :: rest =>
        if Nat.leb (N.to_nat n) (List.length rest)
           && jstring_eqb (skipn (N.to_nat n) rest) k
        then Some {| userId := uid; username := firstn (N.to_nat n) rest;
                     iat := i; exp := e |}
        else None
    | _ => None
    end
  else None.

Definition hash (data : jstring) (rounds : N) (salt : jstring) : jstring :=
  N.of_nat (List.length salt) :: salt ++ data.

Definition compare (data h : jstring) : bool :=
  match h with
  | [] => false
  | n :: rest => jstring_eqb (skipn (N.to_nat n) rest) data
  end.

Definition id_eq (param : jstring) (id : N) : bool :=
  jstring_eqb param (decimal id).

(** The date as its count of milliseconds followed by Z. *)
Definition iso (ms : N) : jstring := decimal ms ++ js "Z".

End Reference.

(* ------------------------------------------------------------------ *)
(** ** Concrete requests and states

    The scenario of the specification: ann registers, logs in, generates
    a prompt and lists it. *)

Definition empty_db : Db :=
  {| registered_users := []; registered_users_next := 1;
     prompts := []; prompts_next := 1;
     login_history := []; login_history_next := 1 |}.

Definition start (d : Db) : World := {| db := d; effects := [] |}.

Definition sample_data : GeminiData :=
  {| candidates := Some
       [{| candidate_content := Some {| reply_parts := Some
            [{| reply_text :=
                  Some (JsonStr (js "  Write a travel blog. ")) |}] |} |}];
     usageMetadata := Some (JsonObj [("totalTokenCount"%string, JsonNum 12)]) |}.

Definition sample_reply : FetchReply :=
  FetchResolves 200 [] (inr (Some sample_data)).

Definition sample_env : Env :=
  {| JWT_SECRET := JStr (js "s3cret");
     GEMINI_API_KEY := js "key";
     NODE_ENV := JStr (js "production");
     Date_now := 1700000000000;
     salt_entropy := js "salt";
     db_fault := fun _ => None;
     fetch := fun _ => sample_reply |}.

Definition ann_request : Request :=
  {| authorization := None;
     req_body := [("username"%string, JStr (js "ann"));
                  ("email"%string, JStr (js "a@x.com"));
                  ("password"%string, JStr (js "pw12345"))];
     params_id := [] |}.

Definition ann_row : UserRow :=
  {| user_id_col := 1; user_username := js "ann";
     user_email := js "a@x.com";
     user_password_hash := Reference.hash (js "pw12345") 10 (js "salt") |}.

Definition ann_db : Db :=
  {| registered_users := [ann_row]; registered_users_next := 2;
     prompts := []; prompts_next := 1;
     login_history := []; login_history_next := 1 |}.

Definition bob_request : Request :=
  {| authorization := None;
     req_body := [("username"%string, JStr (js "bob"));
                  ("email"%string, JStr (js "b@x.com"));
                  ("password"%string, JStr (js "hunter2"))];
     params_id := [] |}.

(** Same email as ann, another username and another password. *)
Definition second_ann_request : Request :=
  {| authorization := None;
     req_body := [("username"%string, JStr (js "anna"));
                  ("email"%string, JStr (js "a@x.com"));
                  ("password"%string, JStr (js "other-password"))];
     params_id := [] |}.

(** The token the server hands to ann at [Date_now sample_env]. *)
Definition ann_token : jstring :=
  Reference.encode
    {| userId := 1; username := js "ann";
       iat := 1700000000; exp := 1700086400 |} (js "s3cret").

Definition bearer (t : jstring) (b : list (string * JsVal)) (id : jstring)
  : Request :=
  {| authorization := Some (js "Bearer " ++ t); req_body := b; params_id := id |}.

(** The same server one hour and twenty-five hours later. *)
Definition at_time (now : N) (env : Env) : Env :=
  {| JWT_SECRET := JWT_SECRET env;
     GEMINI_API_KEY := GEMINI_API_KEY env;
     NODE_ENV := NODE_ENV env;
     Date_now := now;
     salt_entropy := salt_entropy env;
     db_fault := db_fault env;
     fetch := fetch env |}.

Definition one_hour_later : Env := at_time 1700003600000 sample_env.
Definition next_day_later : Env := at_time 1700090000000 sample_env.

(** Three prompts: two of ann (user 1), one of bob (user 2). *)
Definition prompt_row (id uid created : N) : PromptRow :=
  {| prompt_id := id; prompt_user_id := uid;
     prompt_category := js "General"; prompt_idea := js "idea";
     prompt_generated := js "text"; prompt_created_at := created |}.

Definition prompts_db : Db :=
  {| registered_users := [ann_row]; registered_users_next := 3;
     prompts := [prompt_row 1 1 1699990000; prompt_row 2 2 1699995000;
                 prompt_row 3 1 1699999000];
     prompts_next := 4;
     login_history := []; login_history_next := 1 |}.

Definition login_request (email password : string) : Request :=
  {| authorization := None;
     req_body := [("email"%string, JStr (js email));
                  ("password"%string, JStr (js password))];
     params_id := [] |}.

(** Nobody registered this address. *)
Definition carol_login : Request := login_request "c@x.com" "whatever".

Definition ann_login : Request := login_request "a@x.com" "pw12345".

Definition ann_wrong_password : Request := login_request "a@x.com" "guess".

Definition generate_request : Request :=
  bearer ann_token [("idea"%string, JStr (js " a travel blog "))] [].

(** The same server with a storage that fails as [f] says. *)
Definition with_fault (f : Query -> option JsError) (env : Env) : Env :=
  {| JWT_SECRET := JWT_SECRET env;
     GEMINI_API_KEY := GEMINI_API_KEY env;
     NODE_ENV := NODE_ENV env;
     Date_now := Date_now env;
     salt_entropy := salt_entropy env;
     db_fault := f;
     fetch := fetch env |}.

Definition table_missing : JsError :=
  {| message := js "ER_NO_SUCH_TABLE: Table 'idea2prompt.prompts' doesn't exist" |}.

(** Only the login history cannot be written. *)
Definition audit_down : Env :=
  with_fault (fun q => match q with
                       | logQuery _ _ => Some table_missing
                       | _ => None
                       end) sample_env.

(** Only the prompts table cannot be written. *)
Definition prompts_down : Env :=
  with_fault (fun q => match q with
                       | insertPromptQuery _ _ _ _ => Some table_missing
                       | _ => None
                       end) sample_env.

(** Nothing can be read or written. *)
Definition storage_down : Env :=
  with_fault (fun _ => Some table_missing) sample_env.

(** The same server in front of an endpoint that answers 503. *)
Definition upstream_down : Env :=
  {| JWT_SECRET := JWT_SECRET sample_env;
     GEMINI_API_KEY := GEMINI_API_KEY sample_env;
     NODE_ENV := NODE_ENV sample_env;
     Date_now := Date_now sample_env;
     salt_entropy := salt_entropy sample_env;
     db_fault := db_fault sample_env;
     fetch := fun _ => FetchResolves 503 (js "overloaded") (inr None) |}.

(** The claims of [ann_token]. *)
Definition ann_claims : Claims :=
  {| userId := 1; username := js "ann";
     iat := 1700000000; exp := 1700086400 |}.

(** ann's registration without its password. *)
Definition no_password_request : Request :=
  {| authorization := None;
     req_body := [("username"%string, JStr (js "ann"));
                  ("email"%string, JStr (js "a@x.com"))];
     params_id := [] |}.

(** The same server started without JWT_SECRET. *)
Definition no_secret_env : Env :=
  {| JWT_SECRET := JUndefined;
     GEMINI_API_KEY := GEMINI_API_KEY sample_env;
     NODE_ENV := NODE_ENV sample_env;
     Date_now := Date_now sample_env;
     salt_entropy := salt_entropy sample_env;
     db_fault := db_fault sample_env;
     fetch := fetch sample_env |}.

Definition bob_login : Request := login_request "b@x.com" "hunter2".

(** The same token under another scheme and with trailing text. *)
Definition token_scheme_request : Request :=
  {| authorization := Some (js "Token " ++ ann_token ++ js " and more");
     req_body := []; params_id := [] |}.

(** An endpoint whose answer has no candidate. *)
Definition upstream_empty : Env :=
  {| JWT_SECRET := JWT_SECRET sample_env;
     GEMINI_API_KEY := GEMINI_API_KEY sample_env;
     NODE_ENV := NODE_ENV sample_env;
     Date_now := Date_now sample_env;
     salt_entropy := salt_entropy sample_env;
     db_fault := db_fault sample_env;
     fetch := fun _ =>
       FetchResolves 200 []
         (inr (Some {| candidates := Some []; usageMetadata := None |})) |}.


(** An endpoint whose first text is the number 5. *)
Definition upstream_number : Env :=
  {| JWT_SECRET := JWT_SECRET sample_env;
     GEMINI_API_KEY := GEMINI_API_KEY sample_env;
     NODE_ENV := NODE_ENV sample_env;
     Date_now := Date_now sample_env;
     salt_entropy := salt_entropy sample_env;
     db_fault := db_fault sample_env;
     fetch := fun _ =>
       FetchResolves 200 []
         (inr (Some {| candidates := Some
                  [{| candidate_content := Some {| reply_parts := Some
                       [{| reply_text := Some (JsonNum 5) |}] |} |}];
                usageMetadata := None |})) |}.

(* ------------------------------------------------------------------ *)
(** * Properties *)

(** ** Strings *)

Lemma jstring_eqb_refl (a : jstring) : jstring_eqb a a = true.
Proof.
  induction a as [|x a IH]; simpl; [reflexivity|].
  now rewrite N.eqb_refl, IH.
Qed.

Lemma jstring_eqb_eq (a b : jstring) : jstring_eqb a b = true <-> a = b.
Proof.
  split.
  - revert b; induction a as [|x a IH]; intros [|y b]; simpl; try discriminate;
      [reflexivity|].
    intros H. apply andb_true_iff in H as [H1 H2].
    apply N.eqb_eq in H1. apply IH in H2. now subst.
  - intros ->. apply jstring_eqb_refl.
Qed.

(** ** The reference instance satisfies the interface *)

Lemma unshift_shift (l : list N) : map Reference.unshift (map Reference.shift l) = l.
Proof.
  induction l as [|x l IH]; simpl; [reflexivity|].
  rewrite IH. unfold Reference.unshift, Reference.shift. f_equal. lia.
Qed.

Lemma shift_above_space (l : list N) :
  forallb (fun x => 33 <=? x) (map Reference.shift l) = true.
Proof.
  induction l as [|x l IH]; simpl; [reflexivity|].
  rewrite IH, andb_true_r. apply N.leb_le. unfold Reference.shift. lia.
Qed.

Lemma reference_decode_encode (c : Claims) (k : jstring) :
  Reference.decode (Reference.encode c k) k = Some c.
Proof.
  unfold Reference.decode, Reference.encode.
  rewrite shift_above_space, unshift_shift. simpl.
  rewrite Nat2N.id, length_app.
  replace (Nat.leb _ _) with true
    by (symmetry; apply Nat.leb_le; lia).
  rewrite skipn_app, skipn_all, Nat.sub_diag, firstn_app, firstn_all,
    Nat.sub_diag. simpl.
  rewrite jstring_eqb_refl, app_nil_r. now destruct c.
Qed.

Lemma reference_compact (c : Claims) (k : jstring) :
  Reference.encode c k <> [] /\ ~ In 32 (Reference.encode c k).
Proof.
  split; [discriminate|].
  unfold Reference.encode. intros H. apply in_map_iff in H as [x [Hx _]].
  unfold Reference.shift in Hx. lia.
Qed.

Definition reference_platform : Platform := {|
  jws_encode := Reference.encode;
  jws_decode := Reference.decode;
  jws_decode_encode := reference_decode_encode;
  jws_compact := reference_compact;
  bcrypt_hash := Reference.hash;
  bcrypt_compare := Reference.compare;
  sql_text_eq := jstring_eqb;
  sql_id_eq := Reference.id_eq;
  toISOString := Reference.iso;
  not_a_function := {| message := js "text.trim is not a function" |}
|}.

(** ** Running a statement *)

Section Queries.
Context {P : Platform}.
Variable env : Env.

Lemma db_query_ok (q : Query) (w : World) :
  db_fault env q = None ->
  db_query env q w =
    (Normal (fst (exec (Date_now env / 1000) q (db w))),
     {| db := snd (exec (Date_now env / 1000) q (db w));
        effects := effects w ++ [EvQuery q] |}).
Proof.
  intros H. unfold db_query. rewrite H. simpl.
  now destruct (exec (Date_now env / 1000) q (db w)).
Qed.

Lemma db_query_fails (q : Query) (w : World) (e : JsError) :
  db_fault env q = Some e ->
  db_query env q w = (Thrown e, record_event (EvQuery q) w).
Proof. intros H. unfold db_query. now rewrite H. Qed.

End Queries.

Lemma filter_none {A} (f : A -> bool) (l : list A) :
  (forall x, In x l -> f x = false) -> filter f l = [].
Proof.
  induction l as [|a l IH]; simpl; intros H; [reflexivity|].
  rewrite (H a) by now left. apply IH. intros x Hx. apply H. now right.
Qed.

Lemma filter_some {A} (f : A -> bool) (l : list A) (x : A) :
  In x l -> f x = true -> exists y r, filter f l = y :: r.
Proof.
  intros Hin Hf. destruct (filter f l) as [|y r] eqn:E; [|now eauto].
  assert (In x (filter f l)) as Hx by (apply filter_In; now split).
  rewrite E in Hx. destruct Hx.
Qed.

(** ** Tokens *)

Section Tokens.
Context {P : Platform}.

Lemma jwt_sign_inv (uid : N) (uname : jstring) (secret : JsVal) (issued : N)
      (token : jstring) :
  jwt_sign uid uname secret issued = inr token ->
  truthy secret = true /\
  token = jws_encode {| userId := uid; username := uname;
                        iat := issued / 1000;
                        exp := issued / 1000 + expiresIn_24h |} (str secret).
Proof.
  destruct secret as [| |[|c k]]; simpl; try discriminate.
  intros H. injection H as <-. now split.
Qed.

Lemma jwt_sign_configured (uid : N) (uname : jstring) (secret : JsVal) (issued : N) :
  truthy secret = true ->
  jwt_sign uid uname secret issued =
    inr (jws_encode {| userId := uid; username := uname;
                       iat := issued / 1000;
                       exp := issued / 1000 + expiresIn_24h |} (str secret)).
Proof. destruct secret as [| |[|c k]]; simpl; try discriminate. reflexivity. Qed.

Lemma jwt_verify_encoded (c : Claims) (secret : JsVal) (now : N) :
  truthy secret = true ->
  jwt_verify (jws_encode c (str secret)) secret now =
    if exp c <=? now / 1000 then inl TokenExpiredError else inr c.
Proof.
  destruct secret as [| |[|x k]]; simpl; try discriminate.
  intros _. now rewrite jws_decode_encode.
Qed.
End Tokens.

(** ** Registration *)

Section Registration.
Context {P : Platform}.
Variable env : Env.

(** C1. A registration whose three fields are present, whose email and
    username no stored user has, is answered 201: exactly one user row
    is appended, with the id the table assigns, and the token of the
    response verifies, at any time before its expiry, to claims
    carrying that id and the username of the request.  The storage is
    assumed to answer the two statements and the signing secret to be
    configured. *)
Theorem register_fresh_identity (req : Request) (w : World) (u e p : jstring) :
  field (req_body req) "username" = JStr u -> u <> [] ->
  field (req_body req) "email" = JStr e -> e <> [] ->
  field (req_body req) "password" = JStr p -> p <> [] ->
  truthy (JWT_SECRET env) = true ->
  db_fault env (checkUserQuery e u) = None ->
  db_fault env
    (insertUserQuery u e (bcrypt_hash p SALT_ROUNDS (salt_entropy env))) = None ->
  (forall row, In row (registered_users (db w)) ->
     sql_text_eq e (user_email row) = false /\
     sql_text_eq u (user_username row) = false) ->
  exists token w',
    app env POST_register req w =
      (Normal {| status := 201;
                 body := JsonObj
                   [("message"%string, JsonStr (js "User registered successfully"));
                    ("token"%string, JsonStr token);
                    ("user"%string, JsonObj
                       [("id"%string, JsonNum (registered_users_next (db w)));
                        ("username"%string, JsonStr u);
                        ("email"%string, JsonStr e)])] |}, w') /\
    registered_users (db w') =
      registered_users (db w) ++
      [{| user_id_col := registered_users_next (db w);
          user_username := u; user_email := e;
          user_password_hash :=
            bcrypt_hash p SALT_ROUNDS (salt_entropy env) |}] /\
    effects w' =
      effects w ++
      [EvQuery (checkUserQuery e u);
       EvQuery (insertUserQuery u e
                  (bcrypt_hash p SALT_ROUNDS (salt_entropy env)))] /\
    forall now, now / 1000 < Date_now env / 1000 + expiresIn_24h ->
      exists c, jwt_verify token (JWT_SECRET env) now = inr c /\
                userId c = registered_users_next (db w) /\
                username c = u.
Proof.
  intros Hu Hu0 He He0 Hp Hp0 Hk Hq1 Hq2 Hfresh.
  destruct u as [|u0 u']; [contradiction|].
  destruct e as [|e0 e']; [contradiction|].
  destruct p as [|p0 p']; [contradiction|].
  unfold app, register. rewrite Hu, He, Hp. cbn [truthy negb orb str].
  unfold try_catch, bind.
  rewrite (db_query_ok env _ w Hq1). cbn [exec fst snd db].
  rewrite filter_none.
  2:{ intros row Hrow. unfold check_user_where.
      destruct (Hfresh row Hrow) as [-> ->]. reflexivity. }
  cbn [map List.length Nat.ltb Nat.leb].
  rewrite db_query_ok by exact Hq2. cbn [exec fst snd db insertId].
  rewrite jwt_sign_configured by exact Hk. cbn [lift]. unfold ret.
  eexists. eexists. split; [reflexivity|]. cbn [db effects registered_users].
  split; [reflexivity|]. split; [now rewrite <- app_assoc|].
  intros now Hnow. eexists. rewrite jwt_verify_encoded by exact Hk. simpl exp.
  replace (_ <=? _) with false by (symmetry; apply N.leb_gt; exact Hnow).
  split; [reflexivity|]. now split.
Qed.

(** C4. A registration whose email or username a stored user already
    has is answered 400 whatever the password field holds, and leaves
    the database as it was: the only statement that can run is the
    duplicate check, never an insertion.  With a password present the
    answer is the duplicate-identity error, and the check is the one
    statement issued.  The storage is assumed to answer the check. *)
Theorem register_duplicate_identity
        (req : Request) (w : World) (u e : jstring) (row : UserRow) :
  field (req_body req) "username" = JStr u -> u <> [] ->
  field (req_body req) "email" = JStr e -> e <> [] ->
  db_fault env (checkUserQuery e u) = None ->
  In row (registered_users (db w)) ->
  sql_text_eq e (user_email row) = true \/
  sql_text_eq u (user_username row) = true ->
  exists r w',
    app env POST_register req w = (Normal r, w') /\
    status r = 400 /\
    db w' = db w /\
    (effects w' = effects w \/
     effects w' = effects w ++ [EvQuery (checkUserQuery e u)]) /\
    (truthy (field (req_body req) "password") = true ->
     r = error_response 400 "Email or username already exists" /\
     effects w' = effects w ++ [EvQuery (checkUserQuery e u)]).
Proof.
  intros Hu Hu0 He He0 Hq Hin Hdup.
  destruct u as [|u0 u']; [contradiction|].
  destruct e as [|e0 e']; [contradiction|].
  unfold app, register. rewrite Hu, He. cbn [truthy negb orb str].
  destruct (truthy (field (req_body req) "password")) eqn:Hp; cbn [negb].
  - unfold try_catch, bind.
    rewrite (db_query_ok env _ w Hq). cbn [exec fst snd db].
    destruct (filter_some (check_user_where (e0 :: e') (u0 :: u'))
                          (registered_users (db w)) row Hin) as [y [l Hy]].
    { unfold check_user_where. apply orb_true_iff. exact Hdup. }
    rewrite Hy. cbn [map List.length Nat.ltb Nat.leb]. unfold ret.
    eexists. eexists. split; [reflexivity|]. cbn [status error_response db effects].
    repeat split; try reflexivity. now right.
  - unfold ret. eexists. eexists. split; [reflexivity|].
    cbn [status error_response]. repeat split; try reflexivity.
    + now left.
    + discriminate.
    + discriminate.
Qed.
End Registration.

Lemma register_fresh_identity_witness :
  exists r w',
    app (P := reference_platform) sample_env POST_register bob_request
        (start ann_db) = (Normal r, w') /\
    status r = 201 /\
    List.length (registered_users (db w')) = 2%nat.
Proof.
  destruct (register_fresh_identity (P := reference_platform) sample_env
              bob_request (start ann_db) (js "bob") (js "b@x.com")
              (js "hunter2"))
    as [token [w' [Hrun [Husers _]]]];
    try reflexivity; try discriminate.
  - intros row [<-|[]]. split; reflexivity.
  - eexists. exists w'. split; [exact Hrun|]. split; [reflexivity|].
    rewrite Husers. reflexivity.
Defined.

Lemma register_duplicate_identity_witness :
  exists w',
    app (P := reference_platform) sample_env POST_register second_ann_request
        (start ann_db)
    = (Normal (error_response 400 "Email or username already exists"), w') /\
    db w' = ann_db.
Proof.
  destruct (register_duplicate_identity (P := reference_platform) sample_env
              second_ann_request (start ann_db) (js "anna") (js "a@x.com")
              ann_row)
    as [r [w' [Hrun [_ [Hdb [_ Hbody]]]]]];
    try reflexivity; try discriminate.
  - now left.
  - now left.
  - destruct Hbody as [-> _]; [reflexivity|].
    exists w'. split; [exact Hrun|exact Hdb].
Defined.

(** ** The authentication middleware *)

Lemma split_without_separator (sep : N) (s : jstring) :
  ~ In sep s -> split sep s = [s].
Proof.
  induction s as [|c s IH]; simpl; intros H; [reflexivity|].
  destruct (N.eqb_spec c sep) as [->|Hne]; [exfalso; apply H; now left|].
  rewrite IH; [reflexivity|]. intros Hin. apply H. now right.
Qed.

Lemma split_at_separator (sep : N) (pre rest : jstring) :
  ~ In sep pre -> split sep (pre ++ sep :: rest) = pre :: split sep rest.
Proof.
  induction pre as [|c pre IH]; simpl; intros H.
  - now rewrite N.eqb_refl.
  - destruct (N.eqb_spec c sep) as [->|Hne]; [exfalso; apply H; now left|].
    rewrite IH; [reflexivity|]. intros Hin. apply H. now right.
Qed.

Section Authentication.
Context {P : Platform}.

Lemma header_token_falsy (h : option jstring) :
  h = None \/
  (exists s, h = Some s /\ (nth_error (split 32 s) 1 = None \/
                            nth_error (split 32 s) 1 = Some [])) ->
  truthy (header_token h) = false.
Proof.
  intros [->|[s [-> Hs]]]; [reflexivity|].
  destruct s as [|c s]; [reflexivity|]. unfold header_token.
  destruct Hs as [-> | ->]; reflexivity.
Qed.

Lemma header_token_segment (s t : jstring) :
  nth_error (split 32 s) 1 = Some t -> t <> [] ->
  header_token (Some s) = JStr t.
Proof.
  intros Hs Ht. destruct s as [|c s]; [discriminate|].
  unfold header_token. now rewrite Hs.
Qed.

Lemma header_token_bearer (t : jstring) :
  ~ In 32 t -> nth_error (split 32 (js "Bearer " ++ t)) 1 = Some t.
Proof.
  intros H. change (js "Bearer " ++ t) with (js "Bearer" ++ 32 :: t).
  rewrite split_at_separator.
  - now rewrite split_without_separator.
  - cbv. intuition discriminate.
Qed.

Lemma authenticate_rejects (env : Env) (req : Request) (t : jstring)
      (err : VerifyError) :
  header_token (authorization req) = JStr t -> t <> [] ->
  jwt_verify t (JWT_SECRET env) (Date_now env) = inl err ->
  authenticateToken env req = inl (error_response 403 "Invalid or expired token").
Proof.
  intros Hh Ht Hv. unfold authenticateToken. rewrite Hh.
  destruct t as [|c t]; [contradiction|]. cbn [truthy negb str].
  now rewrite Hv.
Qed.

Lemma authenticate_accepts (env : Env) (req : Request) (t : jstring)
      (c : Claims) :
  header_token (authorization req) = JStr t -> t <> [] ->
  jwt_verify t (JWT_SECRET env) (Date_now env) = inr c ->
  authenticateToken env req = inr c.
Proof.
  intros Hh Ht Hv. unfold authenticateToken. rewrite Hh.
  destruct t as [|x t]; [contradiction|]. cbn [truthy negb str].
  now rewrite Hv.
Qed.

(** C2. A token signed for user [uid]/[uname] at time [issued] and
    presented as [Bearer <token>] to the server holding the same
    secret is accepted while the clock, in seconds, is before
    [iat + 24h], and the claims handed to the route carry [uid] and
    [uname]; from [iat + 24h] on it is refused.  Whatever makes a
    verification fail (expiry, bad signature, malformed text), the
    middleware answers the same 403 with the same body. *)
Theorem issued_token_window
        (env : Env) (uid : N) (uname : jstring) (issued : N)
        (token : jstring) (req : Request) :
  jwt_sign uid uname (JWT_SECRET env) issued = inr token ->
  authorization req = Some (js "Bearer " ++ token) ->
  (Date_now env / 1000 < issued / 1000 + expiresIn_24h ->
     exists c,
       jwt_verify token (JWT_SECRET env) (Date_now env) = inr c /\
       authenticateToken env req = inr c /\
       userId c = uid /\ username c = uname) /\
  (issued / 1000 + expiresIn_24h <= Date_now env / 1000 ->
     jwt_verify token (JWT_SECRET env) (Date_now env) = inl TokenExpiredError /\
     authenticateToken env req =
       inl (error_response 403 "Invalid or expired token")) /\
  (forall (req' : Request) (t : jstring) (err : VerifyError),
     header_token (authorization req') = JStr t -> t <> [] ->
     jwt_verify t (JWT_SECRET env) (Date_now env) = inl err ->
     authenticateToken env req' =
       inl (error_response 403 "Invalid or expired token")).
Proof.
  intros Hsign Hhdr.
  apply jwt_sign_inv in Hsign as [Hk ->].
  set (c := {| userId := uid; username := uname; iat := issued / 1000;
               exp := issued / 1000 + expiresIn_24h |}).
  destruct (jws_compact c (str (JWT_SECRET env))) as [Hne Hsp].
  assert (header_token (authorization req)
          = JStr (jws_encode c (str (JWT_SECRET env)))) as Htok.
  { rewrite Hhdr. apply header_token_segment; [|exact Hne].
    now apply header_token_bearer. }
  pose proof (jwt_verify_encoded c (JWT_SECRET env) (Date_now env) Hk) as Hv.
  cbn [exp c] in Hv.
  split; [|split].
  - intros Hin. exists c.
    replace (_ <=? _) with false in Hv by (symmetry; apply N.leb_gt; exact Hin).
    split; [exact Hv|]. split; [|now split].
    now apply (authenticate_accepts env req _ c Htok Hne).
  - intros Hout.
    replace (_ <=? _) with true in Hv by (symmetry; apply N.leb_le; exact Hout).
    split; [exact Hv|].
    now apply (authenticate_rejects env req _ _ Htok Hne Hv).
  - intros req' t err. apply authenticate_rejects.
Qed.

(** C10. On the three routes mounted behind the middleware, a request
    without an Authorization header, or whose header has nothing
    between its first and second space, is answered 401; a request
    whose token fails verification is answered 403.  In both cases the
    world is returned as it was received: no statement was sent to the
    database and nothing to the generation endpoint. *)
Theorem protected_routes_gate (env : Env) (r : Route) (req : Request) (w : World) :
  is_protected r = true ->
  ((authorization req = None \/
    exists h, authorization req = Some h /\
              (nth_error (split 32 h) 1 = None \/
               nth_error (split 32 h) 1 = Some [])) ->
   app env r req w =
     (Normal (error_response 401 "Access token required"), w)) /\
  (forall (h t : jstring) (err : VerifyError),
     authorization req = Some h ->
     nth_error (split 32 h) 1 = Some t -> t <> [] ->
     jwt_verify t (JWT_SECRET env) (Date_now env) = inl err ->
     app env r req w =
       (Normal (error_response 403 "Invalid or expired token"), w)).
Proof.
  intros Hr. split.
  - intros Hh. apply header_token_falsy in Hh.
    assert (authenticateToken env req
            = inl (error_response 401 "Access token required")) as Ha.
    { unfold authenticateToken. now rewrite Hh. }
    destruct r; try discriminate; unfold app, protected; now rewrite Ha.
  - intros h t err Hh Hseg Ht Hv.
    assert (authenticateToken env req
            = inl (error_response 403 "Invalid or expired token")) as Ha.
    { apply (authenticate_rejects env req t err); try assumption.
      rewrite Hh. now apply header_token_segment. }
    destruct r; try discriminate; unfold app, protected; now rewrite Ha.
Qed.
End Authentication.

Lemma issued_token_window_witness :
  (exists c,
     authenticateToken (P := reference_platform) one_hour_later
                       (bearer ann_token [] []) = inr c /\ userId c = 1) /\
  authenticateToken (P := reference_platform) next_day_later
                    (bearer ann_token [] [])
  = inl (error_response 403 "Invalid or expired token").
Proof.
  split.
  - destruct (issued_token_window (P := reference_platform) one_hour_later
                1 (js "ann") (Date_now sample_env) ann_token
                (bearer ann_token [] []) eq_refl eq_refl) as [Hin _].
    destruct (Hin eq_refl) as [c [_ [Ha [Hid _]]]].
    exists c. split; [exact Ha|exact Hid].
  - destruct (issued_token_window (P := reference_platform) next_day_later
                1 (js "ann") (Date_now sample_env) ann_token
                (bearer ann_token [] []) eq_refl eq_refl) as [_ [Hout _]].
    apply Hout. discriminate.
Defined.

Lemma protected_routes_gate_witness :
  app (P := reference_platform) sample_env GET_prompts ann_request
      (start prompts_db)
  = (Normal (error_response 401 "Access token required"), start prompts_db) /\
  app (P := reference_platform) sample_env DELETE_prompt
      (bearer (js "garbage") [] (js "1")) (start prompts_db)
  = (Normal (error_response 403 "Invalid or expired token"), start prompts_db).
Proof.
  split.
  - apply (protected_routes_gate (P := reference_platform) sample_env
             GET_prompts ann_request (start prompts_db) eq_refl).
    now left.
  - apply (protected_routes_gate (P := reference_platform) sample_env
             DELETE_prompt (bearer (js "garbage") [] (js "1"))
             (start prompts_db) eq_refl)
      with (h := js "Bearer garbage") (t := js "garbage")
           (err := JsonWebTokenError);
      try reflexivity. discriminate.
Defined.

(** ** The prompt store *)

Lemma trimStart_blank (s : jstring) :
  forallb is_js_space s = true -> trimStart s = [].
Proof.
  induction s as [|c s IH]; simpl; [reflexivity|].
  intros H. apply andb_true_iff in H as [-> H]. now apply IH.
Qed.

Lemma trim_blank (s : jstring) : forallb is_js_space s = true -> trim s = [].
Proof. intros H. unfold trim, trimEnd. now rewrite (trimStart_blank s H). Qed.

Lemma insert_desc_perm (p : PromptRow) (l : list PromptRow) :
  Permutation (insert_desc p l) (p :: l).
Proof.
  induction l as [|q l IH]; simpl; [reflexivity|].
  destruct (prompt_created_at q <=? prompt_created_at p); [reflexivity|].
  rewrite IH. apply perm_swap.
Qed.

Lemma order_by_perm (l : list PromptRow) :
  Permutation (order_by_created_at_desc l) l.
Proof.
  induction l as [|p l IH]; simpl; [reflexivity|].
  rewrite insert_desc_perm. now constructor.
Qed.

Lemma insert_desc_sorted (p : PromptRow) (l : list PromptRow) :
  StronglySorted (fun a b => prompt_created_at b <= prompt_created_at a) l ->
  StronglySorted (fun a b => prompt_created_at b <= prompt_created_at a)
                 (insert_desc p l).
Proof.
  induction l as [|q l IH]; simpl; intros Hs.
  - constructor; constructor.
  - inversion Hs as [|? ? Hl Hq]; subst.
    destruct (N.leb_spec (prompt_created_at q) (prompt_created_at p)) as [Hle|Hgt].
    + constructor; [exact Hs|]. constructor; [exact Hle|].
      eapply Forall_impl; [|exact Hq]. cbv beta. intros a Ha. lia.
    + constructor; [now apply IH|].
      apply Forall_forall. intros x Hx.
      apply (Permutation_in _ (insert_desc_perm p l)) in Hx.
      destruct Hx as [<-|Hx]; [lia|].
      rewrite Forall_forall in Hq. now apply Hq.
Qed.

Lemma order_by_sorted (l : list PromptRow) :
  StronglySorted (fun a b => prompt_created_at b <= prompt_created_at a)
                 (order_by_created_at_desc l).
Proof.
  induction l as [|p l IH]; simpl; [constructor|].
  now apply insert_desc_sorted.
Qed.

Lemma filter_negb_none {A} (f : A -> bool) (l : list A) :
  (forall x, In x l -> f x = false) ->
  filter (fun x => negb (f x)) l = l.
Proof.
  induction l as [|a l IH]; simpl; intros H; [reflexivity|].
  rewrite (H a) by now left. simpl. f_equal. apply IH.
  intros x Hx. apply H. now right.
Qed.

Section PromptStore.
Context {P : Platform}.
Variable env : Env.

(** C7. Listing answers 200 with the rows of [prompts] owned by the
    authenticated user, each exactly once and no other row, ordered
    so that no row is older than a row after it.  The storage is
    assumed to answer the statement. *)
Theorem list_prompts_newest_first (req : Request) (w : World) (user : Claims) :
  authenticateToken env req = inr user ->
  db_fault env (selectPromptsQuery (userId user)) = None ->
  exists rows,
    app env GET_prompts req w =
      (Normal {| status := 200; body := JsonArr (map prompt_json rows) |},
       {| db := db w;
          effects := effects w ++ [EvQuery (selectPromptsQuery (userId user))] |}) /\
    Permutation rows
      (filter (fun p => prompt_user_id p =? userId user) (prompts (db w))) /\
    (forall p, In p rows <->
               In p (prompts (db w)) /\ prompt_user_id p = userId user) /\
    StronglySorted (fun a b => prompt_created_at b <= prompt_created_at a) rows.
Proof.
  intros Ha Hq.
  exists (order_by_created_at_desc
            (filter (select_prompts_where (userId user)) (prompts (db w)))).
  split; [|split; [|split]].
  - unfold app, protected. rewrite Ha. unfold get_prompts, try_catch, bind.
    rewrite (db_query_ok env _ w Hq). reflexivity.
  - apply order_by_perm.
  - intros p. split.
    + intros Hp. apply (Permutation_in _ (order_by_perm _)) in Hp.
      apply filter_In in Hp as [Hp Hu]. split; [exact Hp|].
      now apply N.eqb_eq in Hu.
    + intros [Hp Hu].
      apply (Permutation_in _ (Permutation_sym (order_by_perm _))).
      apply filter_In. split; [exact Hp|]. now apply N.eqb_eq.
  - apply order_by_sorted.
Qed.

(** C3. When no stored prompt has both the id of the route and the
    authenticated user as owner (the id is unknown, or its prompt is
    somebody else's), DELETE answers the one 404 of both cases and the
    database is what it was: every listing is unchanged and every
    stored prompt is still in the listing of its owner.  The storage
    is assumed to answer the statement. *)
Theorem delete_not_owned (req : Request) (w : World) (user : Claims) :
  authenticateToken env req = inr user ->
  db_fault env (deletePromptQuery (params_id req) (userId user)) = None ->
  (forall p, In p (prompts (db w)) ->
             sql_id_eq (params_id req) (prompt_id p) = true ->
             prompt_user_id p <> userId user) ->
  exists w',
    app env DELETE_prompt req w =
      (Normal (error_response 404 "Prompt not found or user not authorized"),
       w') /\
    db w' = db w /\
    forall seconds p,
      In p (prompts (db w)) ->
      In p (fst (exec seconds (selectPromptsQuery (prompt_user_id p)) (db w'))).
Proof.
  intros Ha Hq Hnone.
  assert (forall p, In p (prompts (db w)) ->
            delete_prompt_where (params_id req) (userId user) p = false) as Hmiss.
  { intros p Hp. unfold delete_prompt_where.
    destruct (sql_id_eq (params_id req) (prompt_id p)) eqn:Hid; [|reflexivity].
    simpl. apply N.eqb_neq. now apply Hnone. }
  unfold app, protected. rewrite Ha. unfold delete_prompt, try_catch, bind.
  rewrite (db_query_ok env _ w Hq). cbn [exec fst snd affectedRows].
  rewrite (filter_none _ _ Hmiss), (filter_negb_none _ _ Hmiss).
  cbn [List.length N.of_nat N.eqb]. unfold ret.
  eexists. split; [reflexivity|]. cbn [db].
  assert ({| registered_users := registered_users (db w);
             registered_users_next := registered_users_next (db w);
             prompts := prompts (db w);
             prompts_next := prompts_next (db w);
             login_history := login_history (db w);
             login_history_next := login_history_next (db w) |} = db w) as ->
    by now destruct (db w).
  split; [reflexivity|].
  intros seconds p Hp. cbn [exec fst].
  apply (Permutation_in _ (Permutation_sym (order_by_perm _))).
  apply filter_In. split; [exact Hp|]. apply N.eqb_refl.
Qed.

(** C5. With a valid token, a generate-prompt request whose idea is
    absent, null, empty or made of white space only is answered 400
    and the world is returned as it was received: nothing was sent to
    the generation endpoint and no row was inserted. *)
Theorem blank_idea_rejected (req : Request) (w : World) (user : Claims) :
  authenticateToken env req = inr user ->
  (field (req_body req) "idea" = JUndefined \/
   field (req_body req) "idea" = JNull \/
   exists s, field (req_body req) "idea" = JStr s /\
             forallb is_js_space s = true) ->
  app env POST_generate_prompt req w =
    (Normal (error_response 400 "Idea is required and cannot be empty"), w).
Proof.
  intros Ha Hidea. unfold app, protected. rewrite Ha. unfold generate_prompt.
  destruct Hidea as [-> | [-> | [s [-> Hs]]]]; try reflexivity.
  cbn [trim_val]. rewrite (trim_blank s Hs). cbn [List.length Nat.eqb].
  now rewrite orb_true_r.
Qed.
End PromptStore.

Lemma list_prompts_newest_first_witness :
  exists rows,
    fst (app (P := reference_platform) sample_env GET_prompts
             (bearer ann_token [] []) (start prompts_db))
    = Normal {| status := 200; body := JsonArr (map prompt_json rows) |} /\
    List.length rows = 2%nat.
Proof.
  destruct (list_prompts_newest_first (P := reference_platform) sample_env
              (bearer ann_token [] []) (start prompts_db)
              {| userId := 1; username := js "ann";
                 iat := 1700000000; exp := 1700086400 |} eq_refl eq_refl)
    as [rows [Hrun [Hperm _]]].
  exists rows. split; [now rewrite Hrun|].
  now rewrite (Permutation_length Hperm).
Defined.

Lemma delete_not_owned_witness :
  exists w',
    app (P := reference_platform) sample_env DELETE_prompt
        (bearer ann_token [] (js "2")) (start prompts_db)
    = (Normal (error_response 404 "Prompt not found or user not authorized"), w') /\
    db w' = prompts_db.
Proof.
  destruct (delete_not_owned (P := reference_platform) sample_env
              (bearer ann_token [] (js "2")) (start prompts_db)
              {| userId := 1; username := js "ann";
                 iat := 1700000000; exp := 1700086400 |} eq_refl eq_refl)
    as [w' [Hrun [Hdb _]]].
  - intros p [<-|[<-|[<-|[]]]]; cbn; discriminate.
  - exists w'. split; [exact Hrun|exact Hdb].
Defined.

Lemma blank_idea_rejected_witness :
  app (P := reference_platform) sample_env POST_generate_prompt
      (bearer ann_token [("idea"%string, JStr [32; 9; 10; 160])] [])
      (start prompts_db)
  = (Normal (error_response 400 "Idea is required and cannot be empty"),
     start prompts_db).
Proof.
  apply (blank_idea_rejected (P := reference_platform) sample_env
           (bearer ann_token [("idea"%string, JStr [32; 9; 10; 160])] [])
           (start prompts_db)
           {| userId := 1; username := js "ann";
              iat := 1700000000; exp := 1700086400 |} eq_refl).
  right. right. exists [32; 9; 10; 160]. split; reflexivity.
Defined.

(** ** The generation mediator *)

Section Mediator.
Context {P : Platform}.
Variable env : Env.

Lemma generateAIPrompt_effects (idea category : jstring) (w : World) :
  snd (generateAIPrompt env idea category w) =
    record_event (EvFetch (gemini_request env idea category)) w.
Proof.
  unfold generateAIPrompt, try_catch, bind, fetch_call.
  destruct (fetch env (gemini_request env idea category))
    as [e|code raw [e|data]]; cbn [snd throw]; try reflexivity.
  - destruct (response_ok code); reflexivity.
  - destruct (response_ok code); cbn [negb lift ret snd]; [|reflexivity].
    destruct (first_text data) as [e|[[|c t]|]]; reflexivity.
Qed.

Lemma test_gemini_effects (req : Request) (w : World) :
  snd (test_gemini env req w) = record_event (EvFetch (test_request env)) w.
Proof.
  unfold test_gemini, try_catch, bind, fetch_call.
  destruct (fetch env (test_request env))
    as [e|code raw [e|data]]; cbn [snd throw]; try reflexivity.
  - destruct (response_ok code); reflexivity.
  - destruct (response_ok code); cbn [negb lift ret snd]; [|reflexivity].
    destruct (first_text data) as [e|[[|c t]|]]; reflexivity.
Qed.

Lemma generateAIPrompt_result (idea category : jstring) (w : World)
      (code : N) (raw : jstring) (data : option GeminiData) (s : jstring) :
  fetch env (gemini_request env idea category)
    = FetchResolves code raw (inr data) ->
  response_ok code = true ->
  first_text data = inr (Some s) -> s <> [] ->
  fst (generateAIPrompt env idea category w) = Normal s.
Proof.
  intros Hf Hok Ht Hs.
  unfold generateAIPrompt, try_catch, bind, fetch_call.
  rewrite Hf, Hok. cbn [negb lift ret]. rewrite Ht. cbn [lift ret].
  destruct s as [|c t]; [contradiction|reflexivity].
Qed.


End Mediator.


(** ** Login *)

Section Login.
Context {P : Platform}.
Variable env : Env.

(** C8, as the code has it.  For a login request with email and
    password present whose lookup the storage answers:
    - when no stored user has the email, the answer is 401 and no
      statement other than the lookup is issued, so no attempt is
      recorded;
    - when [user] is the first stored user with the email, exactly one
      insertion into [login_history] is issued, carrying the id of
      [user] and the outcome of the password check, whether that
      outcome is true or false; if the insertion does not fail the row
      is appended, and if it fails the database is unchanged and the
      answer is the same.  A failed check is answered 401 and a
      successful one 200 (the signing secret being configured). *)
Theorem login_attempt_recorded (req : Request) (w : World) (e p : jstring) :
  field (req_body req) "email" = JStr e -> e <> [] ->
  field (req_body req) "password" = JStr p -> p <> [] ->
  db_fault env (selectUserQuery e) = None ->
  (filter (select_user_where e) (registered_users (db w)) = [] ->
     app env POST_login req w =
       (Normal (error_response 401 "Invalid credentials"),
        {| db := db w;
           effects := effects w ++ [EvQuery (selectUserQuery e)] |})) /\
  (forall user others,
     filter (select_user_where e) (registered_users (db w)) = user :: others ->
     exists r w',
       app env POST_login req w = (Normal r, w') /\
       effects w' =
         effects w ++
         [EvQuery (selectUserQuery e);
          EvQuery (logQuery (user_id_col user)
                     (bcrypt_compare p (user_password_hash user)))] /\
       (db_fault env (logQuery (user_id_col user)
                        (bcrypt_compare p (user_password_hash user))) = None ->
        login_history (db w') =
          login_history (db w) ++
          [{| login_id := login_history_next (db w);
              login_user_id := user_id_col user;
              login_success := bcrypt_compare p (user_password_hash user);
              login_created_at := Date_now env / 1000 |}]) /\
       (db_fault env (logQuery (user_id_col user)
                        (bcrypt_compare p (user_password_hash user))) <> None ->
        db w' = db w) /\
       (bcrypt_compare p (user_password_hash user) = false ->
        r = error_response 401 "Invalid credentials") /\
       (bcrypt_compare p (user_password_hash user) = true ->
        truthy (JWT_SECRET env) = true -> status r = 200)).
Proof.
  intros He He0 Hp Hp0 Hq.
  destruct e as [|e0 e']; [contradiction|].
  destruct p as [|p0 p']; [contradiction|].
  split.
  - intros Hnone. unfold app, login. rewrite He, Hp.
    cbn [truthy negb orb str]. unfold try_catch, bind.
    rewrite (db_query_ok env _ w Hq). cbn [exec fst snd]. rewrite Hnone.
    reflexivity.
  - intros user others Hsome. unfold app, login. rewrite He, Hp.
    cbn [truthy negb orb str]. unfold try_catch at 1. unfold bind at 1.
    rewrite (db_query_ok env _ w Hq). cbn [exec fst snd]. rewrite Hsome.
    set (ok := bcrypt_compare (p0 :: p') (user_password_hash user)).
    unfold bind at 1. unfold db_query_detached, try_catch, bind.
    destruct (db_fault env (logQuery (user_id_col user) ok)) as [err|] eqn:Hlog.
    + rewrite (db_query_fails env _ _ err Hlog). unfold ret at 1.
      destruct ok eqn:Hok; cbn [negb].
      * destruct (truthy (JWT_SECRET env)) eqn:Hk.
        -- rewrite jwt_sign_configured by exact Hk. cbn [lift]. unfold ret.
           eexists. eexists. split; [reflexivity|].
           cbn [record_event db effects status]. rewrite <- app_assoc.
           repeat split; try reflexivity; try discriminate.
        -- destruct (JWT_SECRET env) as [| |[|c k]]; try discriminate;
             cbn [jwt_sign lift throw ret]; eexists; eexists;
             (split; [reflexivity|]);
             cbn [record_event db effects status]; rewrite <- app_assoc;
             repeat split; try reflexivity; try discriminate.
      * unfold ret. eexists. eexists. split; [reflexivity|].
        cbn [record_event db effects status]. rewrite <- app_assoc.
        repeat split; try reflexivity; try discriminate.
    + rewrite (db_query_ok env _ _ Hlog). unfold ret at 1.
      cbn [exec fst snd db effects].
      destruct ok eqn:Hok; cbn [negb].
      * destruct (truthy (JWT_SECRET env)) eqn:Hk.
        -- rewrite jwt_sign_configured by exact Hk. cbn [lift]. unfold ret.
           eexists. eexists. split; [reflexivity|].
           cbn [db effects status login_history]. rewrite <- app_assoc.
           repeat split; try reflexivity; try discriminate.
           intros H. now contradiction H.
        -- destruct (JWT_SECRET env) as [| |[|c k]]; try discriminate;
             cbn [jwt_sign lift throw ret]; eexists; eexists;
             (split; [reflexivity|]);
             cbn [db effects status login_history]; rewrite <- app_assoc;
             repeat split; try reflexivity; try discriminate;
             intros H; now contradiction H.
      * unfold ret. eexists. eexists. split; [reflexivity|].
        cbn [db effects status login_history]. rewrite <- app_assoc.
        repeat split; try reflexivity; try discriminate.
        intros H. now contradiction H.
Qed.
End Login.

Lemma login_attempt_recorded_witness :
  exists r w',
    app (P := reference_platform) sample_env POST_login ann_wrong_password
        (start ann_db) = (Normal r, w') /\
    r = error_response 401 "Invalid credentials" /\
    login_history (db w') =
      [{| login_id := 1; login_user_id := 1; login_success := false;
          login_created_at := 1700000000 |}].
Proof.
  destruct (login_attempt_recorded (P := reference_platform) sample_env
              ann_wrong_password (start ann_db) (js "a@x.com") (js "guess"))
    as [_ Hsome]; try reflexivity; try discriminate.
  destruct (Hsome ann_row [] eq_refl) as [r [w' [Hrun [_ [Hrow [_ [Hbad _]]]]]]].
  exists r, w'. split; [exact Hrun|]. split; [now apply Hbad|].
  now rewrite Hrow.
Defined.

(** C8 as stated fails: a login with email and password present, for an
    email nobody registered, is answered 401 after the lookup alone; the
    login history is what it was and no insertion was issued. *)
Lemma login_unknown_email_unrecorded :
  truthy (field (req_body carol_login) "email") = true /\
  truthy (field (req_body carol_login) "password") = true /\
  app (P := reference_platform) sample_env POST_login carol_login (start ann_db)
  = (Normal (error_response 401 "Invalid credentials"),
     {| db := ann_db;
        effects := [EvQuery (selectUserQuery (js "c@x.com"))] |}) /\
  login_history
    (db (snd (app (P := reference_platform) sample_env POST_login carol_login
                  (start ann_db)))) = [].
Proof. repeat split. Qed.

(** ** Failures of the storage and of the generation endpoint *)

Lemma suffix_unique (a l m : list Event) : a ++ m = a ++ l -> l = m.
Proof. intros H. apply app_inv_head in H. now symmetry. Qed.

Lemma suffix_empty (a l : list Event) : a = a ++ l -> l = [].
Proof. intros H. apply (suffix_unique a l []). now rewrite app_nil_r. Qed.

(** The statements a run added to the trace are known and none of them
    is the failed one. *)
Ltac trace_is Heff :=
  cbn [snd ret record_event effects db] in Heff;
  rewrite <- ?app_assoc in Heff;
  first [ apply suffix_empty in Heff | apply suffix_unique in Heff ];
  subst.

Ltac none_failed Hin :=
  cbn [In app] in Hin; exfalso;
  repeat (destruct Hin as [Hin|Hin];
          [first [discriminate Hin | injection Hin as <-; congruence]|]);
  destruct Hin.

Section Failures.
Context {P : Platform}.
Variable env : Env.

Lemma register_storage_failure (req : Request) (w : World) (q : Query)
      (err : JsError) (l : list Event) :
  effects (snd (register env req w)) = effects w ++ l ->
  In (EvQuery q) l ->
  db_fault env q = Some err ->
  fst (register env req w) =
    Normal (error_response 500 "Server error during registration").
Proof.
  unfold register.
  destruct (negb (truthy (field (req_body req) "username"))
            || negb (truthy (field (req_body req) "email"))
            || negb (truthy (field (req_body req) "password"))).
  { intros Heff Hin _. trace_is Heff. destruct Hin. }
  unfold try_catch, bind.
  match goal with |- context [db_query env ?q1 w] => set (q1' := q1) end.
  destruct (db_fault env q1') as [e1|] eqn:H1.
  { rewrite (db_query_fails env _ _ e1 H1). reflexivity. }
  rewrite (db_query_ok env _ _ H1). subst q1'. cbn [exec fst snd].
  match goal with |- context [Nat.ltb 0 ?n] => destruct (Nat.ltb 0 n) end.
  { intros Heff Hin Hf. trace_is Heff. cbn [In app] in Hin. none_failed Hin. }
  match goal with |- context [db_query env ?q2 ?w0] => set (q2' := q2) end.
  destruct (db_fault env q2') as [e2|] eqn:H2.
  { rewrite (db_query_fails env _ _ e2 H2). reflexivity. }
  rewrite (db_query_ok env _ _ H2). subst q2'. cbn [exec fst snd insertId db].
  match goal with |- context [lift ?s] => destruct s as [e3|token] end;
    cbn [lift throw ret]; [reflexivity|].
  intros Heff Hin Hf. trace_is Heff. none_failed Hin.
Qed.

Lemma login_storage_failure (req : Request) (w : World) (q : Query)
      (err : JsError) (l : list Event) :
  effects (snd (login env req w)) = effects w ++ l ->
  In (EvQuery q) l ->
  db_fault env q = Some err ->
  (forall uid ok, q <> logQuery uid ok) ->
  fst (login env req w) =
    Normal (error_response 500 "Server error during login").
Proof.
  unfold login.
  destruct (negb (truthy (field (req_body req) "email"))
            || negb (truthy (field (req_body req) "password"))).
  { intros Heff Hin _ _. trace_is Heff. destruct Hin. }
  unfold try_catch, bind.
  match goal with |- context [db_query env ?q1 w] => set (q1' := q1) end.
  destruct (db_fault env q1') as [e1|] eqn:H1.
  { rewrite (db_query_fails env _ _ e1 H1). reflexivity. }
  rewrite (db_query_ok env _ _ H1). subst q1'. cbn [exec fst snd].
  destruct (filter _ (registered_users (db w))) as [|user others].
  { intros Heff Hin Hf _. trace_is Heff. none_failed Hin. }
  match goal with
  | |- context [db_query_detached env ?q2 ?w0] =>
      assert (exists d, db_query_detached env q2 w0 =
                (Normal tt, {| db := d; effects := effects w0 ++ [EvQuery q2] |}))
        as [d ->]
  end.
  { unfold db_query_detached, try_catch, bind.
    match goal with |- context [db_query env ?q2 ?w0] =>
      destruct (db_fault env q2) as [e2|] eqn:H2;
      [ rewrite (db_query_fails env _ _ e2 H2)
      | rewrite (db_query_ok env _ _ H2) ]
    end; eexists; reflexivity. }
  cbn [effects].
  assert (forall r w', effects w' = (effects w ++ [EvQuery (selectUserQuery (str (field (req_body req) "email")))]) ++
                        [EvQuery (logQuery (user_id_col user)
                           (bcrypt_compare
                              (str (field (req_body req) "password"))
                              (user_password_hash user)))] ->
            effects w' = effects w ++ l -> In (EvQuery q) l ->
            db_fault env q = Some err ->
            (forall uid ok, q <> logQuery uid ok) ->
            r = Normal (error_response 500 "Server error during login"))
    as Hdone.
  { intros r w' Hw Heff Hin Hf Hlog. rewrite Hw in Heff. trace_is Heff.
    cbn [In app] in Hin. destruct Hin as [Hin|[Hin|[]]].
    - exfalso. congruence.
    - exfalso. injection Hin as <-. now apply (Hlog _ _ eq_refl). }
  destruct (negb _).
  { cbn [ret fst snd]. intros Heff Hin Hf Hlog.
    eapply Hdone; [|exact Heff|exact Hin|exact Hf|exact Hlog]; reflexivity. }
  match goal with |- context [lift ?s] => destruct s as [e3|token] end;
    cbn [lift throw ret bind fst snd]; [reflexivity|].
  intros Heff Hin Hf Hlog. eapply Hdone; [|exact Heff|exact Hin|exact Hf|exact Hlog]; reflexivity.
Qed.

Lemma get_prompts_storage_failure (user : Claims) (req : Request) (w : World)
      (q : Query) (err : JsError) (l : list Event) :
  effects (snd (get_prompts env user req w)) = effects w ++ l ->
  In (EvQuery q) l ->
  db_fault env q = Some err ->
  fst (get_prompts env user req w) =
    Normal (error_response 500 "Failed to fetch prompts").
Proof.
  unfold get_prompts, try_catch, bind.
  destruct (db_fault env (selectPromptsQuery (userId user))) as [e1|] eqn:H1.
  { rewrite (db_query_fails env _ _ e1 H1). reflexivity. }
  rewrite (db_query_ok env _ _ H1).
  intros Heff Hin Hf. trace_is Heff. none_failed Hin.
Qed.

Lemma delete_prompt_storage_failure (user : Claims) (req : Request) (w : World)
      (q : Query) (err : JsError) (l : list Event) :
  effects (snd (delete_prompt env user req w)) = effects w ++ l ->
  In (EvQuery q) l ->
  db_fault env q = Some err ->
  fst (delete_prompt env user req w) =
    Normal (error_response 500 "Failed to delete prompt").
Proof.
  unfold delete_prompt, try_catch, bind.
  destruct (db_fault env (deletePromptQuery (params_id req) (userId user)))
    as [e1|] eqn:H1.
  { rewrite (db_query_fails env _ _ e1 H1). reflexivity. }
  rewrite (db_query_ok env _ _ H1).
  destruct (affectedRows _ =? 0); intros Heff Hin Hf; trace_is Heff;
    none_failed Hin.
Qed.

Lemma generate_prompt_storage_failure (user : Claims) (req : Request)
      (w : World) (q : Query) (err : JsError) (l : list Event) :
  effects (snd (generate_prompt env user req w)) = effects w ++ l ->
  In (EvQuery q) l ->
  db_fault env q = Some err ->
  exists resp, fst (generate_prompt env user req w) = Normal resp /\
               status resp = 500.
Proof.
  unfold generate_prompt.
  destruct (negb (truthy (field (req_body req) "idea"))
            || Nat.eqb (List.length (trim_val (field (req_body req) "idea"))) 0).
  { intros Heff Hin _. trace_is Heff. destruct Hin. }
  unfold try_catch, bind.
  match goal with
  | |- context [generateAIPrompt env ?i ?c w] =>
      pose proof (generateAIPrompt_effects env i c w) as Hg;
      destruct (generateAIPrompt env i c w) as [[g|e] w1]
  end; cbn [snd] in Hg; subst w1.
  - match goal with |- context [db_query env ?q1 ?w0] => set (q1' := q1) end.
    destruct (db_fault env q1') as [e1|] eqn:H1.
    { rewrite (db_query_fails env _ _ e1 H1). intros _ _ _.
      eexists. split; reflexivity. }
    rewrite (db_query_ok env _ _ H1). subst q1'.
    intros Heff Hin Hf. trace_is Heff. none_failed Hin.
  - intros _ _ _. eexists. split; reflexivity.
Qed.

(** C9, as the code has it.
    - When a statement that a route awaits fails (every statement but
      the detached insertion into the login history), the answer is
      500; on register, login, list and delete it is the fixed body of
      the route, in which nothing of the storage error appears,
      whatever the mode.
    - When the mediator throws, the generate-prompt route answers 500
      with the message of the error as [details]; a refusal of the
      endpoint gives the message with its status code.
    - The error middleware answers 500 and reveals the message of the
      error in development mode only. *)
Theorem failure_responses :
  (forall (r : Route) (req : Request) (w : World) (q : Query)
          (err : JsError) (l : list Event),
     effects (snd (app env r req w)) = effects w ++ l ->
     In (EvQuery q) l ->
     db_fault env q = Some err ->
     (forall uid ok, q <> logQuery uid ok) ->
     exists resp,
       fst (app env r req w) = Normal resp /\
       status resp = 500 /\
       match r with
       | POST_register =>
           resp = error_response 500 "Server error during registration"
       | POST_login => resp = error_response 500 "Server error during login"
       | GET_prompts => resp = error_response 500 "Failed to fetch prompts"
       | DELETE_prompt => resp = error_response 500 "Failed to delete prompt"
       | POST_generate_prompt | GET_health | GET_test_gemini => True
       end) /\
  (forall (user : Claims) (req : Request) (w : World) (i : jstring)
          (e : JsError),
     field (req_body req) "idea" = JStr i -> trim i <> [] ->
     fst (generateAIPrompt env (trim i)
            (or_default (field (req_body req) "category") (js "General")) w)
       = Thrown e ->
     fst (generate_prompt env user req w) =
       Normal {| status := 500;
                 body := JsonObj
                   [("error"%string, JsonStr (js "Failed to generate prompt"));
                    ("details"%string, JsonStr (message e))] |}) /\
  (forall (idea category : jstring) (w : World) (code : N) (raw : jstring)
          (json : JsError + option GeminiData),
     fetch env (gemini_request env idea category)
       = FetchResolves code raw json ->
     response_ok code = false ->
     fst (generateAIPrompt env idea category w) =
       Thrown {| message := js "Gemini API request failed: " ++ decimal code |}) /\
  (forall err : JsError,
     status (error_middleware env err) = 500 /\
     (NODE_ENV env = JStr (js "development") ->
      body (error_middleware env err) =
        JsonObj [("error"%string, JsonStr (js "Internal server error"));
                 ("message"%string, JsonStr (message err))]) /\
     (NODE_ENV env <> JStr (js "development") ->
      body (error_middleware env err) =
        JsonObj [("error"%string, JsonStr (js "Internal server error"));
                 ("message"%string, JsonStr (js "Something went wrong"))])).
Proof.
  split; [|split; [|split]].
  - intros r req w q err l Heff Hin Hf Hlog.
    destruct r; unfold app in *.
    + exfalso. trace_is Heff. destruct Hin.
    + exfalso. rewrite test_gemini_effects in Heff. trace_is Heff.
      destruct Hin as [Hin|[]]. discriminate.
    + eexists. split;
        [apply (register_storage_failure req w q err l Heff Hin Hf)|].
      now split.
    + eexists. split;
        [apply (login_storage_failure req w q err l Heff Hin Hf Hlog)|].
      now split.
    + unfold protected in *. destruct (authenticateToken env req) as [res|user].
      { trace_is Heff. destruct Hin. }
      destruct (generate_prompt_storage_failure user req w q err l Heff Hin Hf)
        as [resp [Hr Hs]].
      exists resp. now repeat split.
    + unfold protected in *. destruct (authenticateToken env req) as [res|user].
      { trace_is Heff. destruct Hin. }
      eexists. split;
        [apply (get_prompts_storage_failure user req w q err l Heff Hin Hf)|].
      now split.
    + unfold protected in *. destruct (authenticateToken env req) as [res|user].
      { trace_is Heff. destruct Hin. }
      eexists. split;
        [apply (delete_prompt_storage_failure user req w q err l Heff Hin Hf)|].
      now split.
  - intros user req w i e Hi Hne Hthrow. unfold generate_prompt.
    rewrite Hi in *. cbn [trim_val].
    assert (i <> []) as Hi0 by (intros ->; now apply Hne).
    destruct i as [|i0 i']; [contradiction|]. cbn [truthy negb orb].
    destruct (trim (i0 :: i')) as [|t0 t'] eqn:Ht; [contradiction|].
    cbn [List.length Nat.eqb]. unfold try_catch, bind.
    destruct (generateAIPrompt env (t0 :: t') _ w) as [[g|e'] w1];
      cbn [fst] in Hthrow; [discriminate|].
    injection Hthrow as ->. reflexivity.
  - intros idea category w code raw json Hf Hok.
    unfold generateAIPrompt, try_catch, bind, fetch_call.
    rewrite Hf, Hok. reflexivity.
  - intros err. split; [reflexivity|]. split.
    + intros Hdev. unfold error_middleware. rewrite Hdev.
      now rewrite jstring_eqb_refl.
    + intros Hdev. unfold error_middleware.
      destruct (NODE_ENV env) as [| |m]; try reflexivity.
      destruct (jstring_eqb m (js "development")) eqn:Hm; [|reflexivity].
      apply jstring_eqb_eq in Hm. subst m. now contradiction Hdev.
Qed.
End Failures.

Lemma failure_responses_witness :
  fst (app (P := reference_platform) storage_down POST_register bob_request
           (start ann_db))
  = Normal (error_response 500 "Server error during registration") /\
  fst (generate_prompt (P := reference_platform) upstream_down
         {| userId := 1; username := js "ann";
            iat := 1700000000; exp := 1700086400 |}
         generate_request (start ann_db))
  = Normal {| status := 500;
              body := JsonObj
                [("error"%string, JsonStr (js "Failed to generate prompt"));
                 ("details"%string,
                  JsonStr (js "Gemini API request failed: 503"))] |} /\
  body (error_middleware sample_env table_missing)
  = JsonObj [("error"%string, JsonStr (js "Internal server error"));
             ("message"%string, JsonStr (js "Something went wrong"))].
Proof.
  split; [|split].
  - destruct (failure_responses (P := reference_platform) storage_down)
      as [Hstorage _].
    assert (forall uid ok,
              checkUserQuery (js "b@x.com") (js "bob") <> logQuery uid ok)
      as Hawaited by (intros uid ok; discriminate).
    destruct (Hstorage POST_register bob_request (start ann_db)
                (checkUserQuery (js "b@x.com") (js "bob")) table_missing
                [EvQuery (checkUserQuery (js "b@x.com") (js "bob"))]
                eq_refl (or_introl eq_refl) eq_refl Hawaited)
      as [resp [Hrun [_ Hbody]]].
    rewrite Hrun, Hbody. reflexivity.
  - destruct (failure_responses (P := reference_platform) upstream_down)
      as [_ [Hdetails [Hrefused _]]].
    assert (trim (js " a travel blog ") <> []) as Hidea by discriminate.
    exact (Hdetails {| userId := 1; username := js "ann";
                       iat := 1700000000; exp := 1700086400 |}
                    generate_request (start ann_db) (js " a travel blog ")
                    {| message := js "Gemini API request failed: 503" |}
                    eq_refl Hidea
                    (Hrefused (js "a travel blog") (js "General")
                              (start ann_db) 503 (js "overloaded") (inr None)
                              eq_refl eq_refl)).
  - destruct (failure_responses (P := reference_platform) sample_env)
      as [_ [_ [_ Hmw]]].
    destruct (Hmw table_missing) as [_ [_ Hprod]]. apply Hprod. discriminate.
Defined.

(** C9 as stated fails twice.  A login whose detached insertion into the
    login history fails is still answered 200.  And in production mode a
    generate-prompt request whose insertion into [prompts] fails is
    answered with the text of the storage error as [details]. *)
Lemma storage_failure_counterexample :
  (db_fault audit_down (logQuery 1 true) = Some table_missing /\
   In (EvQuery (logQuery 1 true))
      (effects (snd (app (P := reference_platform) audit_down POST_login
                         ann_login (start ann_db)))) /\
   match fst (app (P := reference_platform) audit_down POST_login ann_login
                  (start ann_db)) with
   | Normal r => status r = 200
   | Thrown _ => False
   end) /\
  (NODE_ENV prompts_down = JStr (js "production") /\
   db_fault prompts_down
     (insertPromptQuery 1 (js "General") (js "a travel blog")
                        (js "Write a travel blog.")) = Some table_missing /\
   app (P := reference_platform) prompts_down POST_generate_prompt
       generate_request (start ann_db)
   = (Normal {| status := 500;
                body := JsonObj
                  [("error"%string, JsonStr (js "Failed to generate prompt"));
                   ("details"%string, JsonStr (message table_missing))] |},
      {| db := ann_db;
         effects :=
           [EvFetch (gemini_request prompts_down (js "a travel blog")
                                    (js "General"));
            EvQuery (insertPromptQuery 1 (js "General") (js "a travel blog")
                                       (js "Write a travel blog."))] |})).
Proof.
  split; [split; [reflexivity|split]|split; [reflexivity|split; reflexivity]].
  - vm_compute. right. now left.
  - vm_compute. reflexivity.
Qed.

(* ------------------------------------------------------------------ *)
(** * Further properties of the handlers *)

Section MoreQueries.
Context {P : Platform}.
Variable env : Env.

(** A statement either fails as the environment says, leaving the
    database alone, or runs; in both cases it is recorded. *)
Lemma db_query_cases (q : Query) (w : World) :
  (exists e, db_fault env q = Some e /\
             db_query env q w = (Thrown e, record_event (EvQuery q) w)) \/
  (db_fault env q = None /\
   db_query env q w =
     (Normal (fst (exec (Date_now env / 1000) q (db w))),
      {| db := snd (exec (Date_now env / 1000) q (db w));
         effects := effects w ++ [EvQuery q] |})).
Proof.
  destruct (db_fault env q) as [e|] eqn:Hq.
  - left. exists e. split; [reflexivity|]. now apply db_query_fails.
  - right. split; [reflexivity|]. now apply db_query_ok.
Qed.

Lemma db_query_detached_run (q : Query) (w : World) :
  exists d,
    db_query_detached env q w =
      (Normal tt, {| db := d; effects := effects w ++ [EvQuery q] |}) /\
    (d = db w \/ d = snd (exec (Date_now env / 1000) q (db w))).
Proof.
  unfold db_query_detached, try_catch, bind.
  destruct (db_query_cases q w) as [[e [_ ->]]|[_ ->]].
  - exists (db w). split; [reflexivity|now left].
  - eexists. split; [reflexivity|now right].
Qed.
End MoreQueries.

Section Credentials.
Context {P : Platform}.
Variable env : Env.

(** X1. A registration in which the username, the email or the
    password is absent, null or empty is answered 400 and nothing is
    done: no statement, no change. *)
Theorem register_missing_field (req : Request) (w : World) :
  truthy (field (req_body req) "username") = false \/
  truthy (field (req_body req) "email") = false \/
  truthy (field (req_body req) "password") = false ->
  app env POST_register req w =
    (Normal (error_response 400 "All fields are required"), w).
Proof.
  intros H. unfold app, register.
  replace (negb (truthy (field (req_body req) "username"))
           || negb (truthy (field (req_body req) "email"))
           || negb (truthy (field (req_body req) "password"))) with true;
    [reflexivity|].
  symmetry. destruct H as [-> | [-> | ->]]; cbn [negb];
    rewrite ?orb_true_r; reflexivity.
Qed.

(** X2. A login in which the email or the password is absent, null or
    empty is answered 400 and nothing is done. *)
Theorem login_missing_field (req : Request) (w : World) :
  truthy (field (req_body req) "email") = false \/
  truthy (field (req_body req) "password") = false ->
  app env POST_login req w =
    (Normal (error_response 400 "Email and password are required"), w).
Proof.
  intros H. unfold app, login.
  replace (negb (truthy (field (req_body req) "email"))
           || negb (truthy (field (req_body req) "password"))) with true;
    [reflexivity|].
  symmetry. destruct H as [-> | ->]; cbn [negb];
    rewrite ?orb_true_r; reflexivity.
Qed.

Lemma login_accepts (req : Request) (w : World) (e p : jstring)
      (user : UserRow) (others : list UserRow) :
  field (req_body req) "email" = JStr e -> e <> [] ->
  field (req_body req) "password" = JStr p -> p <> [] ->
  db_fault env (selectUserQuery e) = None ->
  truthy (JWT_SECRET env) = true ->
  filter (select_user_where e) (registered_users (db w)) = user :: others ->
  bcrypt_compare p (user_password_hash user) = true ->
  fst (app env POST_login req w) =
    Normal {| status := 200;
              body := JsonObj
                [("message"%string, JsonStr (js "Login successful"));
                 ("token"%string,
                  JsonStr (jws_encode
                             {| userId := user_id_col user;
                                username := user_username user;
                                iat := Date_now env / 1000;
                                exp := Date_now env / 1000 + expiresIn_24h |}
                             (str (JWT_SECRET env))));
                 ("user"%string, JsonObj
                    [("id"%string, JsonNum (user_id_col user));
                     ("username"%string, JsonStr (user_username user));
                     ("email"%string, JsonStr (user_email user))])] |}.
Proof.
  intros He He0 Hp Hp0 Hq Hk Hm Hok.
  destruct e as [|e0 e']; [contradiction|].
  destruct p as [|p0 p']; [contradiction|].
  unfold app, login. rewrite He, Hp. cbn [truthy negb orb str].
  unfold try_catch, bind. rewrite (db_query_ok env _ w Hq). cbn [exec fst snd].
  rewrite Hm.
  match goal with |- context [db_query_detached env ?q ?w0] =>
    destruct (db_query_detached_run env q w0) as [d [-> _]]
  end.
  rewrite Hok. cbn [negb].
  rewrite jwt_sign_configured by exact Hk. reflexivity.
Qed.

Lemma issued_claims_verify (c : Claims) (secret : JsVal) (issued now : N) :
  truthy secret = true ->
  exp c = issued / 1000 + expiresIn_24h ->
  now / 1000 < issued / 1000 + expiresIn_24h ->
  jwt_verify (jws_encode c (str secret)) secret now = inr c.
Proof.
  intros Hk Hexp Hnow. rewrite jwt_verify_encoded by exact Hk. rewrite Hexp.
  now replace (_ <=? _) with false by (symmetry; apply N.leb_gt; exact Hnow).
Qed.

(** X3. The outcome of a login whose lookup the storage answers, the
    secret being configured.  If the first stored user with the email
    passes the password check, the answer is 200, its [user] object is
    read from the stored row and its token verifies, before expiry, to
    the id and username of that row.  If nobody has the email, or the
    check fails, the answer is one and the same 401. *)
Theorem login_outcome (req : Request) (w : World) (e p : jstring) :
  field (req_body req) "email" = JStr e -> e <> [] ->
  field (req_body req) "password" = JStr p -> p <> [] ->
  db_fault env (selectUserQuery e) = None ->
  truthy (JWT_SECRET env) = true ->
  (forall user others,
     filter (select_user_where e) (registered_users (db w)) = user :: others ->
     bcrypt_compare p (user_password_hash user) = true ->
     exists token,
       fst (app env POST_login req w) =
         Normal {| status := 200;
                   body := JsonObj
                     [("message"%string, JsonStr (js "Login successful"));
                      ("token"%string, JsonStr token);
                      ("user"%string, JsonObj
                         [("id"%string, JsonNum (user_id_col user));
                          ("username"%string, JsonStr (user_username user));
                          ("email"%string, JsonStr (user_email user))])] |} /\
       forall now, now / 1000 < Date_now env / 1000 + expiresIn_24h ->
         exists c, jwt_verify token (JWT_SECRET env) now = inr c /\
                   userId c = user_id_col user /\
                   username c = user_username user) /\
  (filter (select_user_where e) (registered_users (db w)) = [] \/
   (exists user others,
      filter (select_user_where e) (registered_users (db w)) = user :: others /\
      bcrypt_compare p (user_password_hash user) = false) ->
   fst (app env POST_login req w) =
     Normal (error_response 401 "Invalid credentials")).
Proof.
  intros He He0 Hp Hp0 Hq Hk.
  destruct e as [|e0 e']; [contradiction|].
  destruct p as [|p0 p']; [contradiction|].
  split.
  - intros user others Hm Hok. eexists. split.
    + apply (login_accepts req w (e0 :: e') (p0 :: p') user others);
        assumption.
    + intros now Hnow. eexists.
      split; [now apply (issued_claims_verify _ _ (Date_now env))|].
      split; reflexivity.
  - unfold app, login. rewrite He, Hp. cbn [truthy negb orb str].
    unfold try_catch, bind. rewrite (db_query_ok env _ w Hq).
    cbn [exec fst snd].
    intros [Hm | [user [others [Hm Hbad]]]]; rewrite Hm; [reflexivity|].
    destruct (db_query_detached_run env
                (logQuery (user_id_col user)
                   (bcrypt_compare (p0 :: p') (user_password_hash user)))
                {| db := db w;
                   effects := effects w ++
                     [EvQuery (selectUserQuery (e0 :: e'))] |})
      as [d [-> _]].
    rewrite Hbad. reflexivity.
Qed.

(** X4. Registration does not undo its insertion: when the signing
    secret is missing or empty, a registration that passes the
    duplicate check is answered 500 although the user row has been
    stored. *)
Theorem register_without_secret (req : Request) (w : World) (u e p : jstring) :
  field (req_body req) "username" = JStr u -> u <> [] ->
  field (req_body req) "email" = JStr e -> e <> [] ->
  field (req_body req) "password" = JStr p -> p <> [] ->
  truthy (JWT_SECRET env) = false ->
  db_fault env (checkUserQuery e u) = None ->
  db_fault env
    (insertUserQuery u e (bcrypt_hash p SALT_ROUNDS (salt_entropy env))) = None ->
  filter (check_user_where e u) (registered_users (db w)) = [] ->
  exists w',
    app env POST_register req w =
      (Normal (error_response 500 "Server error during registration"), w') /\
    registered_users (db w') =
      registered_users (db w) ++
      [{| user_id_col := registered_users_next (db w);
          user_username := u; user_email := e;
          user_password_hash :=
            bcrypt_hash p SALT_ROUNDS (salt_entropy env) |}].
Proof.
  intros Hu Hu0 He He0 Hp Hp0 Hk Hq1 Hq2 Hfresh.
  destruct u as [|u0 u']; [contradiction|].
  destruct e as [|e0 e']; [contradiction|].
  destruct p as [|p0 p']; [contradiction|].
  unfold app, register. rewrite Hu, He, Hp. cbn [truthy negb orb str].
  unfold try_catch, bind.
  rewrite (db_query_ok env _ w Hq1). cbn [exec fst snd db]. rewrite Hfresh.
  cbn [map List.length Nat.ltb Nat.leb].
  rewrite db_query_ok by exact Hq2. cbn [exec fst snd db insertId].
  assert (forall uid, exists err,
            jwt_sign uid (u0 :: u') (JWT_SECRET env) (Date_now env) = inl err)
    as Hsign.
  { intros uid. destruct (JWT_SECRET env) as [| |[|c k]]; try discriminate;
      eexists; reflexivity. }
  destruct (Hsign (registered_users_next (db w))) as [err ->].
  cbn [lift throw ret]. eexists. split; reflexivity.
Qed.
End Credentials.

(** ** What [trim] removes *)

Lemma trimStart_split (s : jstring) :
  exists a, s = a ++ trimStart s /\ forallb is_js_space a = true.
Proof.
  induction s as [|c s [a [Hs Ha]]]; [exists []; now split|].
  simpl. destruct (is_js_space c) eqn:Hc.
  - exists (c :: a). simpl. rewrite Hc, Ha. split; [now f_equal|reflexivity].
  - exists []. now split.
Qed.

Lemma trimStart_head (s r : jstring) (c : N) :
  trimStart s = c :: r -> is_js_space c = false.
Proof.
  induction s as [|x s IH]; simpl; [discriminate|].
  destruct (is_js_space x) eqn:Hx; [exact IH|].
  intros H. injection H as <- _. exact Hx.
Qed.

Lemma trimStart_kept (s : jstring) (c : N) :
  is_js_space c = false -> trimStart (s ++ [c]) = trimStart s ++ [c].
Proof.
  intros Hc. induction s as [|x s IH]; simpl; [now rewrite Hc|].
  destruct (is_js_space x); [exact IH|reflexivity].
Qed.

Lemma trimEnd_head (s : jstring) (c : N) :
  is_js_space c = false -> trimEnd (c :: s) = c :: trimEnd s.
Proof.
  intros Hc. unfold trimEnd. simpl rev.
  now rewrite (trimStart_kept _ _ Hc), rev_app_distr.
Qed.

Lemma trimEnd_split (s : jstring) :
  exists b, s = trimEnd s ++ b /\ forallb is_js_space b = true.
Proof.
  destruct (trimStart_split (rev s)) as [a [Hs Ha]].
  exists (rev a). split.
  - unfold trimEnd. rewrite <- rev_app_distr, <- Hs. now rewrite rev_involutive.
  - rewrite forallb_forall in *. intros x Hx. apply Ha. now apply in_rev.
Qed.

Lemma trimEnd_last (s r : jstring) (c : N) :
  trimEnd s = r ++ [c] -> is_js_space c = false.
Proof.
  unfold trimEnd. intros H.
  apply (f_equal (@rev N)) in H. rewrite rev_involutive, rev_app_distr in H.
  simpl in H. now apply trimStart_head in H.
Qed.

Lemma trimStart_fixed (s : jstring) : trimStart (trimStart s) = trimStart s.
Proof.
  destruct (trimStart s) as [|c r] eqn:E; [reflexivity|].
  simpl. now rewrite (trimStart_head _ _ _ E).
Qed.

Lemma trim_split (s : jstring) :
  exists a b, s = a ++ trim s ++ b /\
              forallb is_js_space a = true /\
              forallb is_js_space b = true.
Proof.
  unfold trim.
  destruct (trimStart_split s) as [a [Hs Ha]].
  destruct (trimEnd_split (trimStart s)) as [b [Ht Hb]].
  exists a, b. split; [|now split]. rewrite <- Ht. exact Hs.
Qed.

Lemma trim_head (s r : jstring) (c : N) :
  trim s = c :: r -> is_js_space c = false.
Proof.
  unfold trim. intros H. destruct (trimStart s) as [|x t] eqn:E; [discriminate|].
  pose proof (trimStart_head _ _ _ E) as Hx.
  rewrite (trimEnd_head _ _ Hx) in H. injection H as <- _. exact Hx.
Qed.

Lemma trim_fixed (s : jstring) : trim (trim s) = trim s.
Proof.
  destruct (trim s) as [|c r] eqn:E; [reflexivity|].
  pose proof (trim_head _ _ _ E) as Hc.
  unfold trim at 1. cbn [trimStart]. rewrite Hc.
  rewrite <- E. unfold trim, trimEnd. rewrite rev_involutive.
  now rewrite trimStart_fixed.
Qed.

(** X17. [trim] removes white space at both ends and nothing else: the
    string is a run of white space, the trimmed string, and a run of
    white space; the trimmed string neither starts nor ends with white
    space, and trimming it again changes nothing. *)
Theorem trim_removes_only_outer_space (s : jstring) :
  (exists a b, s = a ++ trim s ++ b /\
               forallb is_js_space a = true /\
               forallb is_js_space b = true) /\
  (forall c r, trim s = c :: r -> is_js_space c = false) /\
  (forall r c, trim s = r ++ [c] -> is_js_space c = false) /\
  trim (trim s) = trim s.
Proof.
  split; [apply trim_split|]. split; [intros c r; apply trim_head|].
  split; [intros r c; apply trimEnd_last|].
  apply trim_fixed.
Qed.

Lemma trim_empty_blank (s : jstring) :
  trim s = [] -> forallb is_js_space s = true.
Proof.
  intros H. destruct (trim_split s) as [a [b [Hs [Ha Hb]]]].
  rewrite H in Hs. rewrite Hs. simpl. rewrite forallb_app, Ha, Hb. reflexivity.
Qed.

(** ** The mediator and the generate-prompt route *)

Lemma first_text_trimmed {P : Platform} (data : option GeminiData) (s : jstring) :
  first_text data = inr (Some s) -> trim s = s.
Proof.
  unfold first_text, optional_trim.
  destruct (first_part_text data) as [[| | |t| |]|]; try discriminate.
  intros H. injection H as <-. apply trim_fixed.
Qed.

Section Generation.
Context {P : Platform}.
Variable env : Env.

(** X7. The mediator returns a text exactly when the endpoint answers
    with a success status, a body that parses, and a first part of the
    first candidate whose trimmed text is not empty; the text it returns
    is that trimmed text, so it is never empty and never starts or ends
    with white space. *)
Theorem mediator_returns_text (idea category : jstring) (w : World) (s : jstring) :
  (fst (generateAIPrompt env idea category w) = Normal s <->
   exists code raw data,
     fetch env (gemini_request env idea category)
       = FetchResolves code raw (inr data) /\
     response_ok code = true /\
     first_text data = inr (Some s) /\ s <> []) /\
  (fst (generateAIPrompt env idea category w) = Normal s ->
   s <> [] /\ trim s = s).
Proof.
  assert (fst (generateAIPrompt env idea category w) = Normal s ->
          exists code raw data,
            fetch env (gemini_request env idea category)
              = FetchResolves code raw (inr data) /\
            response_ok code = true /\
            first_text data = inr (Some s) /\ s <> []) as Honly.
  { unfold generateAIPrompt, try_catch, bind, fetch_call.
    destruct (fetch env (gemini_request env idea category))
      as [e|code raw [e|data]]; cbn [fst throw]; try discriminate.
    - destruct (response_ok code); discriminate.
    - destruct (response_ok code) eqn:Hok; cbn [negb lift ret fst];
        [|discriminate].
      destruct (first_text data) as [e|[[|c t]|]] eqn:Ht;
        cbn [lift fst throw ret]; try discriminate.
      intros H. injection H as <-.
      exists code, raw, data. repeat split; try assumption. discriminate. }
  split; [split; [exact Honly|]|].
  - intros [code [raw [data [Hf [Hok [Ht Hs]]]]]].
    now apply (generateAIPrompt_result env idea category w code raw data s).
  - intros H. destruct (Honly H) as [code [raw [data [_ [_ [Ht Hs]]]]]].
    split; [exact Hs|]. now apply (first_text_trimmed data).
Qed.

(** X8. How the mediator fails.  A rejected request and an unparsable
    body pass their own error on.  A success answer whose first text is
    missing (any level of the envelope absent or empty), null, or a
    string of white space raises the fixed no-response error.  A success
    answer whose first text is any other JSON value (a number, a
    boolean, an array, an object) raises the TypeError of the call to
    [trim]. *)
Theorem mediator_failures (idea category : jstring) (w : World) :
  (forall e,
     fetch env (gemini_request env idea category) = FetchRejects e ->
     fst (generateAIPrompt env idea category w) = Thrown e) /\
  (forall code raw e,
     fetch env (gemini_request env idea category)
       = FetchResolves code raw (inl e) ->
     response_ok code = true ->
     fst (generateAIPrompt env idea category w) = Thrown e) /\
  (forall code raw data,
     fetch env (gemini_request env idea category)
       = FetchResolves code raw (inr data) ->
     response_ok code = true ->
     first_part_text data = None \/
     first_part_text data = Some JsonNull \/
     (exists s, first_part_text data = Some (JsonStr s) /\
                forallb is_js_space s = true) ->
     fst (generateAIPrompt env idea category w) =
       Thrown {| message := js "No valid response generated from Gemini API" |}) /\
  (forall code raw data j,
     fetch env (gemini_request env idea category)
       = FetchResolves code raw (inr data) ->
     response_ok code = true ->
     first_part_text data = Some j ->
     j <> JsonNull -> (forall s, j <> JsonStr s) ->
     fst (generateAIPrompt env idea category w) = Thrown not_a_function).
Proof.
  unfold generateAIPrompt, try_catch, bind, fetch_call.
  split; [|split; [|split]].
  - intros e ->. reflexivity.
  - intros code raw e -> ->. reflexivity.
  - intros code raw data Hf Hok Ht. rewrite Hf, Hok. cbn [negb lift ret].
    unfold first_text.
    destruct Ht as [-> | [-> | [s [-> Hs]]]]; try reflexivity.
    cbn [optional_trim lift ret]. now rewrite (trim_blank s Hs).
  - intros code raw data j Hf Hok Hj Hnull Hstr. rewrite Hf, Hok.
    cbn [negb lift ret]. unfold first_text. rewrite Hj.
    destruct j as [| | |s| |]; try reflexivity.
    + now contradiction Hnull.
    + now contradiction (Hstr s).
Qed.

(** X5. A generate-prompt request with a valid token and a non-blank
    idea, for which the mediator returns [g] and the insertion is
    answered, gets 200 with the new id and [g]; one row is appended to
    [prompts], owned by the user of the token, with the category of the
    request (General when missing or empty), the trimmed idea, [g] and
    the clock; the other tables are untouched, and the trace is the
    request to the endpoint followed by the insertion. *)
Theorem generate_prompt_stores (req : Request) (w : World) (user : Claims)
        (i g : jstring) :
  authenticateToken env req = inr user ->
  field (req_body req) "idea" = JStr i -> trim i <> [] ->
  fst (generateAIPrompt env (trim i)
         (or_default (field (req_body req) "category") (js "General")) w)
    = Normal g ->
  db_fault env
    (insertPromptQuery (userId user)
       (or_default (field (req_body req) "category") (js "General"))
       (trim i) g) = None ->
  exists w',
    app env POST_generate_prompt req w =
      (Normal {| status := 200;
                 body := JsonObj
                   [("success"%string, JsonBool true);
                    ("id"%string, JsonNum (prompts_next (db w)));
                    ("prompt"%string, JsonStr g)] |}, w') /\
    prompts (db w') =
      prompts (db w) ++
      [{| prompt_id := prompts_next (db w);
          prompt_user_id := userId user;
          prompt_category :=
            or_default (field (req_body req) "category") (js "General");
          prompt_idea := trim i;
          prompt_generated := g;
          prompt_created_at := Date_now env / 1000 |}] /\
    registered_users (db w') = registered_users (db w) /\
    login_history (db w') = login_history (db w) /\
    effects w' =
      effects w ++
      [EvFetch (gemini_request env (trim i)
                  (or_default (field (req_body req) "category") (js "General")));
       EvQuery (insertPromptQuery (userId user)
                  (or_default (field (req_body req) "category") (js "General"))
                  (trim i) g)].
Proof.
  intros Ha Hi Hne Hg Hq.
  unfold app, protected. rewrite Ha. unfold generate_prompt.
  rewrite Hi. cbn [trim_val].
  assert (i <> []) as Hi0 by (intros ->; now apply Hne).
  destruct i as [|i0 i']; [contradiction|]. cbn [truthy negb orb].
  destruct (trim (i0 :: i')) as [|t0 t'] eqn:Ht; [contradiction|].
  cbn [List.length Nat.eqb]. unfold try_catch, bind.
  pose proof (generateAIPrompt_effects env (t0 :: t')
                (or_default (field (req_body req) "category") (js "General")) w)
    as He.
  destruct (generateAIPrompt env (t0 :: t') _ w) as [[g'|e] w1];
    cbn [fst snd] in *; [|discriminate].
  injection Hg as ->. subst w1.
  rewrite (db_query_ok env _ _ Hq). cbn [exec fst snd db insertId ret].
  eexists. split; [reflexivity|]. cbn [db prompts registered_users
    login_history effects record_event].
  repeat split; try reflexivity. now rewrite <- app_assoc.
Qed.

(** X6. When the mediator throws, the generate-prompt route answers 500
    with the message of the error, and no prompt is stored: the database
    is unchanged and the only effect is the request to the endpoint. *)
Theorem generate_prompt_upstream_failure (req : Request) (w : World)
        (user : Claims) (i : jstring) (e : JsError) :
  authenticateToken env req = inr user ->
  field (req_body req) "idea" = JStr i -> trim i <> [] ->
  fst (generateAIPrompt env (trim i)
         (or_default (field (req_body req) "category") (js "General")) w)
    = Thrown e ->
  app env POST_generate_prompt req w =
    (Normal {| status := 500;
               body := JsonObj
                 [("error"%string, JsonStr (js "Failed to generate prompt"));
                  ("details"%string, JsonStr (message e))] |},
     {| db := db w;
        effects :=
          effects w ++
          [EvFetch (gemini_request env (trim i)
                      (or_default (field (req_body req) "category")
                                  (js "General")))] |}).
Proof.
  intros Ha Hi Hne Hg.
  unfold app, protected. rewrite Ha. unfold generate_prompt.
  rewrite Hi. cbn [trim_val].
  assert (i <> []) as Hi0 by (intros ->; now apply Hne).
  destruct i as [|i0 i']; [contradiction|]. cbn [truthy negb orb].
  destruct (trim (i0 :: i')) as [|t0 t'] eqn:Ht; [contradiction|].
  cbn [List.length Nat.eqb]. unfold try_catch, bind.
  pose proof (generateAIPrompt_effects env (t0 :: t')
                (or_default (field (req_body req) "category") (js "General")) w)
    as He.
  destruct (generateAIPrompt env (t0 :: t') _ w) as [[g'|e'] w1];
    cbn [fst snd] in *; [discriminate|].
  injection Hg as ->. subst w1. reflexivity.
Qed.

(** X16. The validation of generate-prompt refuses no string but a
    blank one: behind a valid token, when the idea of the request is a
    string and the answer has status 400, the string is empty or made of
    white space only. *)
Theorem generate_prompt_400_only_blank (req : Request) (w : World)
        (user : Claims) (resp : Response) (s : jstring) :
  authenticateToken env req = inr user ->
  field (req_body req) "idea" = JStr s ->
  fst (app env POST_generate_prompt req w) = Normal resp ->
  status resp = 400 ->
  forallb is_js_space s = true.
Proof.
  intros Ha Hi Hrun Hst. unfold app, protected in Hrun. rewrite Ha in Hrun.
  unfold generate_prompt in Hrun. rewrite Hi in Hrun.
  cbn [trim_val] in Hrun.
  destruct (trim s) as [|t0 t'] eqn:Ht; [now apply trim_empty_blank|].
  exfalso.
  assert (truthy (JStr s) = true) as Hs.
  { destruct s; [discriminate Ht|reflexivity]. }
  rewrite Hs in Hrun. cbn [negb orb List.length Nat.eqb] in Hrun.
  unfold try_catch, bind in Hrun.
  destruct (generateAIPrompt env (t0 :: t') _ w) as [[g|e] w1].
  - match type of Hrun with
    | context [db_query env ?q ?w0] =>
        destruct (db_query env q w0) as [[r|e] w2]
    end; cbn [fst ret] in Hrun; injection Hrun as <-; discriminate.
  - cbn [fst ret] in Hrun. injection Hrun as <-. discriminate.
Qed.
End Generation.

(** ** How a request changes the database *)

Section Transitions.
Context {P : Platform}.
Variable env : Env.

Lemma register_transition (req : Request) (w : World) :
  db (snd (register env req w)) = db w \/
  exists u e h,
    filter (check_user_where e u) (registered_users (db w)) = [] /\
    db (snd (register env req w)) =
      snd (exec (Date_now env / 1000) (insertUserQuery u e h) (db w)).
Proof.
  unfold register.
  destruct (negb (truthy (field (req_body req) "username"))
            || negb (truthy (field (req_body req) "email"))
            || negb (truthy (field (req_body req) "password")));
    [now left|].
  unfold try_catch, bind.
  match goal with |- context [db_query env ?q w] =>
    destruct (db_query_cases env q w) as [[e1 [_ ->]]|[_ ->]]
  end; [now left|].
  cbn [exec fst snd].
  destruct (filter _ (registered_users (db w))) as [|x l] eqn:Hfresh;
    [|now left].
  cbn [map List.length Nat.ltb Nat.leb].
  match goal with |- context [db_query env ?q ?w0] =>
    destruct (db_query_cases env q w0) as [[e2 [_ ->]]|[_ ->]]
  end; [now left|].
  right. eexists. eexists. eexists. split; [exact Hfresh|].
  cbn [fst snd db].
  match goal with |- context [lift ?s] => destruct s end; reflexivity.
Qed.

Lemma login_transition (req : Request) (w : World) :
  db (snd (login env req w)) = db w \/
  exists user ok,
    In user (registered_users (db w)) /\
    db (snd (login env req w)) =
      snd (exec (Date_now env / 1000) (logQuery (user_id_col user) ok) (db w)).
Proof.
  unfold login.
  destruct (negb (truthy (field (req_body req) "email"))
            || negb (truthy (field (req_body req) "password")));
    [now left|].
  unfold try_catch, bind.
  match goal with |- context [db_query env ?q w] =>
    destruct (db_query_cases env q w) as [[e1 [_ ->]]|[_ ->]]
  end; [now left|].
  cbn [exec fst snd].
  destruct (filter _ (registered_users (db w))) as [|user others] eqn:Hm;
    [now left|].
  assert (In user (registered_users (db w))) as Hin.
  { assert (In user (filter (select_user_where
                               (str (field (req_body req) "email")))
                            (registered_users (db w)))) as H
      by (rewrite Hm; now left).
    now apply filter_In in H. }
  match goal with |- context [db_query_detached env ?q ?w0] =>
    destruct (db_query_detached_run env q w0) as [d [-> Hd]]
  end.
  cbn [db] in Hd.
  assert (forall (c : Completion Response) w1,
            db w1 = d ->
            db (snd (c, w1)) = db w \/
            exists user0 ok,
              In user0 (registered_users (db w)) /\
              db (snd (c, w1)) =
                snd (exec (Date_now env / 1000)
                          (logQuery (user_id_col user0) ok) (db w))) as Hend.
  { intros c w1 Hw1. cbn [snd]. rewrite Hw1.
    destruct Hd as [-> | ->]; [now left|].
    right. eexists. eexists. split; [exact Hin|reflexivity]. }
  destruct (negb _); [now apply Hend|].
  match goal with |- context [lift ?s] => destruct s end;
    cbn [lift throw ret]; now apply Hend.
Qed.

Lemma generate_prompt_transition (user : Claims) (req : Request) (w : World) :
  db (snd (generate_prompt env user req w)) = db w \/
  exists c i g,
    db (snd (generate_prompt env user req w)) =
      snd (exec (Date_now env / 1000)
                (insertPromptQuery (userId user) c i g) (db w)).
Proof.
  unfold generate_prompt.
  destruct (negb (truthy (field (req_body req) "idea")) || _); [now left|].
  unfold try_catch, bind.
  match goal with |- context [generateAIPrompt env ?i ?c w] =>
    pose proof (generateAIPrompt_effects env i c w) as Hg;
    destruct (generateAIPrompt env i c w) as [[g|e] w1]
  end; cbn [snd] in Hg; subst w1; [|now left].
  match goal with |- context [db_query env ?q ?w0] =>
    destruct (db_query_cases env q w0) as [[e2 [_ ->]]|[_ ->]]
  end; [now left|].
  right. eexists. eexists. eexists. reflexivity.
Qed.

Lemma get_prompts_transition (user : Claims) (req : Request) (w : World) :
  db (snd (get_prompts env user req w)) = db w.
Proof.
  unfold get_prompts, try_catch, bind.
  match goal with |- context [db_query env ?q w] =>
    destruct (db_query_cases env q w) as [[e1 [_ ->]]|[_ ->]]
  end; reflexivity.
Qed.

Lemma delete_prompt_transition (user : Claims) (req : Request) (w : World) :
  db (snd (delete_prompt env user req w)) = db w \/
  db (snd (delete_prompt env user req w)) =
    snd (exec (Date_now env / 1000)
              (deletePromptQuery (params_id req) (userId user)) (db w)).
Proof.
  unfold delete_prompt, try_catch, bind.
  match goal with |- context [db_query env ?q w] =>
    destruct (db_query_cases env q w) as [[e1 [_ ->]]|[_ ->]]
  end; [now left|].
  right. cbn [fst snd]. destruct (affectedRows _ =? 0); reflexivity.
Qed.

(** Every change a request makes to the database is the effect of one
    of four statements, each tied to its route. *)
Lemma db_transition (r : Route) (req : Request) (w : World) :
  db (snd (app env r req w)) = db w \/
  (exists u e h,
     r = POST_register /\
     filter (check_user_where e u) (registered_users (db w)) = [] /\
     db (snd (app env r req w)) =
       snd (exec (Date_now env / 1000) (insertUserQuery u e h) (db w))) \/
  (exists user ok,
     r = POST_login /\ In user (registered_users (db w)) /\
     db (snd (app env r req w)) =
       snd (exec (Date_now env / 1000)
                 (logQuery (user_id_col user) ok) (db w))) \/
  (exists user c i g,
     r = POST_generate_prompt /\ authenticateToken env req = inr user /\
     db (snd (app env r req w)) =
       snd (exec (Date_now env / 1000)
                 (insertPromptQuery (userId user) c i g) (db w))) \/
  (exists user,
     r = DELETE_prompt /\ authenticateToken env req = inr user /\
     db (snd (app env r req w)) =
       snd (exec (Date_now env / 1000)
                 (deletePromptQuery (params_id req) (userId user)) (db w))).
Proof.
  destruct r; unfold app, protected.
  - now left.
  - left. now rewrite test_gemini_effects.
  - destruct (register_transition req w) as [H|[u [e [h [Hf H]]]]];
      [now left|].
    right. left. exists u, e, h. now repeat split.
  - destruct (login_transition req w) as [H|[user [ok [Hin H]]]];
      [now left|].
    right. right. left. exists user, ok. now repeat split.
  - destruct (authenticateToken env req) as [res|user] eqn:Ha; [now left|].
    destruct (generate_prompt_transition user req w) as [H|[c [i [g H]]]];
      [now left|].
    right. right. right. left. exists user, c, i, g. now repeat split.
  - destruct (authenticateToken env req) as [res|user] eqn:Ha; [now left|].
    left. apply get_prompts_transition.
  - destruct (authenticateToken env req) as [res|user] eqn:Ha; [now left|].
    destruct (delete_prompt_transition user req w) as [H|H]; [now left|].
    right. right. right. right. exists user. now repeat split.
Qed.
End Transitions.

(** ** Invariants of the database *)

Lemma ids_append {A} (id : A -> N) (next : N) (l : list A) (x : A) :
  Forall (fun a => id a < next) l -> NoDup (map id l) -> id x = next ->
  Forall (fun a => id a < next + 1) (l ++ [x]) /\ NoDup (map id (l ++ [x])).
Proof.
  intros Hlt Hnd Hx. split.
  - apply Forall_app. split.
    + eapply Forall_impl; [|exact Hlt]. cbv beta. intros a Ha. lia.
    + constructor; [lia|constructor].
  - rewrite map_app. simpl.
    apply NoDup_app; [exact Hnd|repeat constructor; intros []|].
    intros y Hy Hy'. destruct Hy' as [<-|[]].
    apply in_map_iff in Hy as [a [Ha Hin]].
    rewrite Forall_forall in Hlt. specialize (Hlt a Hin). lia.
Qed.

Lemma ids_filter {A} (id : A -> N) (next : N) (f : A -> bool) (l : list A) :
  Forall (fun a => id a < next) l -> NoDup (map id l) ->
  Forall (fun a => id a < next) (filter f l) /\ NoDup (map id (filter f l)).
Proof.
  intros Hlt Hnd. split.
  - rewrite Forall_forall in *. intros a Ha. apply filter_In in Ha as [Ha _].
    now apply Hlt.
  - clear Hlt. induction l as [|a l IH]; simpl; [constructor|].
    inversion Hnd as [|? ? Hnotin Hnd']; subst.
    destruct (f a); [|now apply IH]. simpl. constructor; [|now apply IH].
    intros Hin. apply Hnotin. apply in_map_iff in Hin as [b [Hb Hin]].
    apply filter_In in Hin as [Hin _]. apply in_map_iff. now exists b.
Qed.

Lemma filter_nil_all {A} (f : A -> bool) (l : list A) :
  filter f l = [] -> Forall (fun a => f a = false) l.
Proof.
  induction l as [|a l IH]; simpl; [constructor|].
  destruct (f a) eqn:Hf; [discriminate|]. intros H. constructor; auto.
Qed.

Lemma ordered_pairs_append {A} (R : A -> A -> Prop) (l : list A) (x : A) :
  ForallOrdPairs R l -> Forall (fun a => R a x) l ->
  ForallOrdPairs R (l ++ [x]).
Proof.
  induction 1 as [|a l Ha Hl IH]; simpl; intros Hx.
  - constructor; constructor.
  - inversion Hx; subst. constructor; [|now apply IH].
    apply Forall_app. split; [exact Ha|]. now constructor.
Qed.

Section Invariants.
Context {P : Platform}.
Variable env : Env.

(** X11. Users and login attempts are only ever added: whatever the
    route and the request, the two tables after the request are the
    tables before it followed by at most one new row. *)
Theorem users_and_history_append_only (r : Route) (req : Request) (w : World) :
  exists new_users new_attempts,
    registered_users (db (snd (app env r req w))) =
      registered_users (db w) ++ new_users /\
    login_history (db (snd (app env r req w))) =
      login_history (db w) ++ new_attempts /\
    (List.length new_users + List.length new_attempts <= 1)%nat.
Proof.
  destruct (db_transition env r req w)
    as [H|[[u [e [h [_ [_ H]]]]]|[[user [ok [_ [_ H]]]]
       |[[user [c [i [g [_ [_ H]]]]]]|[user [_ [_ H]]]]]]];
    rewrite H; cbn [exec snd registered_users login_history].
  - exists [], []. rewrite !app_nil_r. repeat split. simpl. lia.
  - eexists. exists []. split; [reflexivity|].
    split; [symmetry; apply app_nil_r|simpl; lia].
  - exists []. eexists. split; [symmetry; apply app_nil_r|].
    split; [reflexivity|simpl; lia].
  - exists [], []. rewrite !app_nil_r. repeat split. simpl. lia.
  - exists [], []. rewrite !app_nil_r. repeat split. simpl. lia.
Qed.

(** X12. The ids of a table stay distinct and below its counter: if
    that holds of the three tables before a request, it holds after it,
    whatever the route and the request. *)
Theorem ids_stay_distinct (r : Route) (req : Request) (w : World) :
  (Forall (fun u => user_id_col u < registered_users_next (db w))
          (registered_users (db w)) /\
   NoDup (map user_id_col (registered_users (db w)))) ->
  (Forall (fun p => prompt_id p < prompts_next (db w)) (prompts (db w)) /\
   NoDup (map prompt_id (prompts (db w)))) ->
  (Forall (fun a => login_id a < login_history_next (db w))
          (login_history (db w)) /\
   NoDup (map login_id (login_history (db w)))) ->
  (Forall (fun u => user_id_col u
                    < registered_users_next (db (snd (app env r req w))))
          (registered_users (db (snd (app env r req w)))) /\
   NoDup (map user_id_col (registered_users (db (snd (app env r req w)))))) /\
  (Forall (fun p => prompt_id p < prompts_next (db (snd (app env r req w))))
          (prompts (db (snd (app env r req w)))) /\
   NoDup (map prompt_id (prompts (db (snd (app env r req w)))))) /\
  (Forall (fun a => login_id a
                    < login_history_next (db (snd (app env r req w))))
          (login_history (db (snd (app env r req w)))) /\
   NoDup (map login_id (login_history (db (snd (app env r req w)))))).
Proof.
  intros [Hu1 Hu2] [Hp1 Hp2] [Hl1 Hl2].
  destruct (db_transition env r req w)
    as [H|[[u [e [h [_ [_ H]]]]]|[[user [ok [_ [_ H]]]]
       |[[user [c [i [g [_ [_ H]]]]]]|[user [_ [_ H]]]]]]];
    rewrite H;
    cbn [exec snd registered_users registered_users_next prompts prompts_next
         login_history login_history_next].
  - now repeat split.
  - split; [|now repeat split]. now apply ids_append.
  - split; [now split|]. split; [now split|]. now apply ids_append.
  - split; [now split|]. split; [|now split]. now apply ids_append.
  - split; [now split|]. split; [|now split]. now apply ids_filter.
Qed.

Lemma identities_step (r : Route) (req : Request) (w : World) :
  ForallOrdPairs
    (fun older newer =>
       check_user_where (user_email newer) (user_username newer) older = false)
    (registered_users (db w)) ->
  ForallOrdPairs
    (fun older newer =>
       check_user_where (user_email newer) (user_username newer) older = false)
    (registered_users (db (snd (app env r req w)))).
Proof.
  intros Hinv.
  destruct (db_transition env r req w)
    as [H|[[u [e [h [_ [Hfresh H]]]]]|[[user [ok [_ [_ H]]]]
       |[[user [c [i [g [_ [_ H]]]]]]|[user [_ [_ H]]]]]]];
    rewrite H; cbn [exec snd registered_users]; try exact Hinv.
  apply ordered_pairs_append; [exact Hinv|].
  cbn [user_email user_username]. now apply filter_nil_all.
Qed.

(** X10. A request never touches the prompts of a user it is not
    authenticated as: for every route and request, the rows of [prompts]
    owned by [owner] are the same, in the same order, after the request,
    unless the request carries a valid token of [owner]. *)
Theorem other_users_prompts_untouched
        (r : Route) (req : Request) (w : World) (owner : N) :
  (forall user, authenticateToken env req = inr user -> userId user <> owner) ->
  filter (select_prompts_where owner) (prompts (db (snd (app env r req w)))) =
  filter (select_prompts_where owner) (prompts (db w)).
Proof.
  intros Hother.
  destruct (db_transition env r req w)
    as [H|[[u [e [h [_ [_ H]]]]]|[[user [ok [_ [_ H]]]]
       |[[user [c [i [g [_ [Ha H]]]]]]|[user [_ [Ha H]]]]]]];
    rewrite H; cbn [exec snd prompts]; try reflexivity.
  - rewrite filter_app. cbn [filter]. unfold select_prompts_where at 2.
    cbn [prompt_user_id].
    replace (userId user =? owner) with false
      by (symmetry; apply N.eqb_neq; now apply Hother).
    apply app_nil_r.
  - pose proof (Hother user Ha) as Hne.
    induction (prompts (db w)) as [|p l IH]; [reflexivity|].
    cbn [filter]. unfold delete_prompt_where at 1, select_prompts_where at 2.
    destruct (N.eqb_spec (prompt_user_id p) owner) as [Ho|Ho].
    + replace (prompt_user_id p =? userId user) with false
        by (symmetry; apply N.eqb_neq; congruence).
      rewrite andb_false_r. cbn [negb filter].
      unfold select_prompts_where at 1. rewrite Ho, N.eqb_refl. now f_equal.
    + destruct (negb _); [|exact IH].
      cbn [filter]. unfold select_prompts_where at 1.
      replace (prompt_user_id p =? owner) with false
        by (symmetry; now apply N.eqb_neq).
      exact IH.
Qed.

(** X14. Listing reads only: GET /api/prompts leaves the database as it
    was, whether the token is refused, the statement fails or rows are
    returned. *)
Theorem listing_changes_nothing (req : Request) (w : World) :
  db (snd (app env GET_prompts req w)) = db w.
Proof.
  unfold app, protected.
  destruct (authenticateToken env req) as [res|user]; [reflexivity|].
  apply get_prompts_transition.
Qed.
End Invariants.

(** X13. Served one after the other, requests never create a second
    user with an email or a username already taken: if each stored user
    passed the duplicate check against all users stored before it, the
    same holds after any sequence of requests, each run to completion
    before the next starts.  Nothing is said of two registrations whose
    statements interleave: the check and the insertion are two
    statements, and the handler awaits between them. *)
Theorem identities_stay_distinct {P : Platform}
        (requests : list (Env * Route * Request)) (w : World) :
  ForallOrdPairs
    (fun older newer =>
       check_user_where (user_email newer) (user_username newer) older = false)
    (registered_users (db w)) ->
  ForallOrdPairs
    (fun older newer =>
       check_user_where (user_email newer) (user_username newer) older = false)
    (registered_users (db (serve_in_turn requests w))).
Proof.
  revert w. induction requests as [|[[env r] req] rest IH]; intros w Hinv.
  - exact Hinv.
  - cbn [serve_in_turn]. apply IH. now apply identities_step.
Qed.

(** ** Deleting and listing *)

Lemma order_by_newest (l : list PromptRow) (x : PromptRow) :
  Forall (fun p => prompt_created_at p < prompt_created_at x) l ->
  order_by_created_at_desc (l ++ [x]) = x :: order_by_created_at_desc l.
Proof.
  unfold order_by_created_at_desc. rewrite fold_right_app. cbn [fold_right insert_desc].
  induction 1 as [|p l Hp Hl IH]; [reflexivity|].
  cbn [fold_right]. rewrite IH. cbn [insert_desc].
  now replace (prompt_created_at x <=? prompt_created_at p) with false
    by (symmetry; apply N.leb_gt; exact Hp).
Qed.

Section OwnPrompts.
Context {P : Platform}.
Variable env : Env.

Lemma generate_prompt_run (req : Request) (w : World) (user : Claims)
      (i g : jstring) :
  authenticateToken env req = inr user ->
  field (req_body req) "idea" = JStr i -> trim i <> [] ->
  fst (generateAIPrompt env (trim i)
         (or_default (field (req_body req) "category") (js "General")) w)
    = Normal g ->
  db_fault env
    (insertPromptQuery (userId user)
       (or_default (field (req_body req) "category") (js "General"))
       (trim i) g) = None ->
  db (snd (app env POST_generate_prompt req w)) =
    snd (exec (Date_now env / 1000)
           (insertPromptQuery (userId user)
              (or_default (field (req_body req) "category") (js "General"))
              (trim i) g) (db w)).
Proof.
  intros Ha Hi Hne Hg Hq.
  unfold app, protected. rewrite Ha. unfold generate_prompt.
  rewrite Hi. cbn [trim_val].
  assert (i <> []) as Hi0 by (intros ->; now apply Hne).
  destruct i as [|i0 i']; [contradiction|]. cbn [truthy negb orb].
  destruct (trim (i0 :: i')) as [|t0 t'] eqn:Ht; [contradiction|].
  cbn [List.length Nat.eqb]. unfold try_catch, bind.
  pose proof (generateAIPrompt_effects env (t0 :: t')
                (or_default (field (req_body req) "category") (js "General")) w)
    as He.
  destruct (generateAIPrompt env (t0 :: t') _ w) as [[g'|e] w1];
    cbn [fst snd] in *; [|discriminate].
  injection Hg as ->. subst w1.
  rewrite (db_query_ok env _ _ Hq). reflexivity.
Qed.

Lemma get_prompts_run (env2 : Env) (req : Request) (w : World) (user : Claims) :
  authenticateToken env2 req = inr user ->
  db_fault env2 (selectPromptsQuery (userId user)) = None ->
  fst (app env2 GET_prompts req w) =
    Normal {| status := 200;
              body := JsonArr
                (map prompt_json
                   (order_by_created_at_desc
                      (filter (select_prompts_where (userId user))
                              (prompts (db w))))) |}.
Proof.
  intros Ha Hq. unfold app, protected. rewrite Ha.
  unfold get_prompts, try_catch, bind. now rewrite (db_query_ok env2 _ w Hq).
Qed.

(** X9. The owner deletes: with a valid token, when some stored prompt
    has the id of the route and the user of the token as owner, DELETE is
    answered 200; the prompts left are exactly those that do not have
    that id and owner, the other tables are untouched, and the deleted
    prompt is in no later listing of its owner.  The storage is assumed
    to answer the statement. *)
Theorem delete_own_prompt (req : Request) (w : World) (user : Claims)
        (p : PromptRow) :
  authenticateToken env req = inr user ->
  db_fault env (deletePromptQuery (params_id req) (userId user)) = None ->
  In p (prompts (db w)) ->
  sql_id_eq (params_id req) (prompt_id p) = true ->
  prompt_user_id p = userId user ->
  exists w',
    app env DELETE_prompt req w =
      (Normal {| status := 200;
                 body := JsonObj
                   [("message"%string,
                     JsonStr (js "Prompt deleted successfully"))] |}, w') /\
    (forall q, In q (prompts (db w')) <->
               In q (prompts (db w)) /\
               delete_prompt_where (params_id req) (userId user) q = false) /\
    registered_users (db w') = registered_users (db w) /\
    login_history (db w') = login_history (db w) /\
    (forall seconds,
       ~ In p (fst (exec seconds (selectPromptsQuery (userId user)) (db w')))).
Proof.
  intros Ha Hq Hin Hid Hown.
  assert (delete_prompt_where (params_id req) (userId user) p = true) as Hhit.
  { unfold delete_prompt_where. rewrite Hid, Hown. apply N.eqb_refl. }
  unfold app, protected. rewrite Ha. unfold delete_prompt, try_catch, bind.
  rewrite (db_query_ok env _ w Hq). cbn [exec fst snd affectedRows].
  destruct (filter_some _ _ p Hin Hhit) as [y [l ->]].
  cbn [List.length]. rewrite Nat2N.inj_succ.
  replace (N.succ _ =? 0) with false
    by (symmetry; apply N.eqb_neq; apply N.neq_succ_0).
  unfold ret. eexists. split; [reflexivity|].
  cbn [db prompts registered_users login_history].
  split; [|split; [reflexivity|split; [reflexivity|]]].
  - intros q. rewrite filter_In. split.
    + intros [Hq1 Hq2]. split; [exact Hq1|]. now apply negb_true_iff.
    + intros [Hq1 Hq2]. split; [exact Hq1|]. now apply negb_true_iff.
  - intros seconds Hp. cbn [exec fst prompts] in Hp.
    apply (Permutation_in _ (order_by_perm _)) in Hp.
    apply filter_In in Hp as [Hp _]. apply filter_In in Hp as [_ Hp].
    rewrite Hhit in Hp. discriminate.
Qed.

(** X19. A generated prompt is listed for its owner and for nobody
    else.  After a successful generate-prompt request of [user], a
    listing by the same user contains the new row, at the head when all
    older prompts of the user were created in an earlier second; a
    listing by any other user is what it would have been before. *)
Theorem generated_prompt_is_listed
        (req : Request) (w : World) (user : Claims) (i g : jstring)
        (env2 : Env) (req2 : Request) (user2 : Claims) :
  authenticateToken env req = inr user ->
  field (req_body req) "idea" = JStr i -> trim i <> [] ->
  fst (generateAIPrompt env (trim i)
         (or_default (field (req_body req) "category") (js "General")) w)
    = Normal g ->
  db_fault env
    (insertPromptQuery (userId user)
       (or_default (field (req_body req) "category") (js "General"))
       (trim i) g) = None ->
  authenticateToken env2 req2 = inr user2 ->
  db_fault env2 (selectPromptsQuery (userId user2)) = None ->
  exists rows,
    fst (app env2 GET_prompts req2
             (snd (app env POST_generate_prompt req w))) =
      Normal {| status := 200; body := JsonArr (map prompt_json rows) |} /\
    (userId user2 = userId user ->
     In {| prompt_id := prompts_next (db w);
           prompt_user_id := userId user;
           prompt_category :=
             or_default (field (req_body req) "category") (js "General");
           prompt_idea := trim i;
           prompt_generated := g;
           prompt_created_at := Date_now env / 1000 |} rows /\
     (Forall (fun p => prompt_created_at p < Date_now env / 1000)
             (filter (select_prompts_where (userId user)) (prompts (db w))) ->
      rows =
        {| prompt_id := prompts_next (db w);
           prompt_user_id := userId user;
           prompt_category :=
             or_default (field (req_body req) "category") (js "General");
           prompt_idea := trim i;
           prompt_generated := g;
           prompt_created_at := Date_now env / 1000 |}
        :: order_by_created_at_desc
             (filter (select_prompts_where (userId user)) (prompts (db w))))) /\
    (userId user2 <> userId user ->
     rows = order_by_created_at_desc
              (filter (select_prompts_where (userId user2)) (prompts (db w)))).
Proof.
  intros Ha Hi Hne Hg Hq Ha2 Hq2.
  eexists. split; [now apply (get_prompts_run env2 req2 _ user2)|].
  rewrite (generate_prompt_run req w user i g Ha Hi Hne Hg Hq).
  cbn [exec snd prompts]. rewrite filter_app. cbn [filter].
  match goal with
  | |- context [select_prompts_where (userId user2) ?row] =>
      change (select_prompts_where (userId user2) row)
        with (userId user =? userId user2)
  end.
  split.
  - intros Hsame. rewrite Hsame, N.eqb_refl. split.
    + apply (Permutation_in _ (Permutation_sym (order_by_perm _))).
      apply in_or_app. right. now left.
    + intros Hold. now apply order_by_newest.
  - intros Hdiff.
    replace (userId user =? userId user2) with false
      by (symmetry; apply N.eqb_neq; congruence).
    now rewrite app_nil_r.
Qed.
End OwnPrompts.

(** ** What the middleware reads of the header *)

Lemma split_second_segment (scheme t : jstring) :
  ~ In 32 scheme -> ~ In 32 t ->
  nth_error (split 32 (scheme ++ 32 :: t)) 1 = Some t /\
  forall trailing,
    nth_error (split 32 (scheme ++ 32 :: t ++ 32 :: trailing)) 1 = Some t.
Proof.
  intros Hs Ht. split.
  - rewrite (split_at_separator _ _ _ Hs), (split_without_separator _ _ Ht).
    reflexivity.
  - intros trailing.
    rewrite (split_at_separator _ _ _ Hs), (split_at_separator _ _ _ Ht).
    reflexivity.
Qed.

Lemma header_token_nonempty (h : jstring) :
  h <> [] ->
  header_token (Some h) =
    match nth_error (split 32 h) 1 with
    | Some t => JStr t
    | None => JUndefined
    end.
Proof. destruct h; [contradiction|reflexivity]. Qed.

Section Scheme.
Context {P : Platform}.
Variable env : Env.

(** X15. The middleware never looks at the scheme of the Authorization
    header, nor at what follows a second space: a header made of any
    word without a space, a space and the token, with or without further
    text after another space, is treated exactly as [Bearer <token>]. *)
Theorem scheme_is_not_checked
        (req req' : Request) (scheme t trailing : jstring) :
  ~ In 32 scheme -> ~ In 32 t ->
  authorization req = Some (js "Bearer " ++ t) ->
  authorization req' = Some (scheme ++ 32 :: t) \/
  authorization req' = Some (scheme ++ 32 :: t ++ 32 :: trailing) ->
  authenticateToken env req' = authenticateToken env req.
Proof.
  intros Hs Ht Hreq Hreq'.
  assert (header_token (authorization req) = JStr t) as H1.
  { rewrite Hreq, header_token_nonempty by discriminate.
    now rewrite (header_token_bearer t Ht). }
  assert (header_token (authorization req') = JStr t) as H2.
  { destruct (split_second_segment scheme t Hs Ht) as [Hone Hmore].
    destruct Hreq' as [-> | ->]; rewrite header_token_nonempty.
    - now rewrite Hone.
    - now destruct scheme.
    - now rewrite Hmore.
    - now destruct scheme. }
  unfold authenticateToken. now rewrite H1, H2.
Qed.
End Scheme.

(** ** Registering, then logging in *)

Section RegisterThenLogin.
Context {P : Platform}.
Variable env : Env.

Lemma register_fresh_run (req : Request) (w : World) (u e p : jstring) :
  field (req_body req) "username" = JStr u -> u <> [] ->
  field (req_body req) "email" = JStr e -> e <> [] ->
  field (req_body req) "password" = JStr p -> p <> [] ->
  truthy (JWT_SECRET env) = true ->
  db_fault env (checkUserQuery e u) = None ->
  db_fault env
    (insertUserQuery u e (bcrypt_hash p SALT_ROUNDS (salt_entropy env))) = None ->
  filter (check_user_where e u) (registered_users (db w)) = [] ->
  db (snd (app env POST_register req w)) =
    snd (exec (Date_now env / 1000)
           (insertUserQuery u e (bcrypt_hash p SALT_ROUNDS (salt_entropy env)))
           (db w)).
Proof.
  intros Hu Hu0 He He0 Hp Hp0 Hk Hq1 Hq2 Hfresh.
  destruct u as [|u0 u']; [contradiction|].
  destruct e as [|e0 e']; [contradiction|].
  destruct p as [|p0 p']; [contradiction|].
  unfold app, register. rewrite Hu, He, Hp. cbn [truthy negb orb str].
  unfold try_catch, bind.
  rewrite (db_query_ok env _ w Hq1). cbn [exec fst snd db]. rewrite Hfresh.
  cbn [map List.length Nat.ltb Nat.leb].
  rewrite db_query_ok by exact Hq2. cbn [exec fst snd db insertId].
  rewrite jwt_sign_configured by exact Hk. reflexivity.
Qed.

(** X18. Registration and login fit together.  After a registration
    with a fresh identity, a login with the same email and password is
    answered 200 for the user just created, and its token verifies to
    the id that registration assigned.  It is assumed that bcrypt
    accepts the password it hashed, that the table's comparison finds an
    email equal to itself, that the storage answers and that the secret
    is configured at both times. *)
Theorem registered_user_can_log_in
        (req : Request) (w : World) (u e p : jstring)
        (env2 : Env) (req2 : Request) :
  field (req_body req) "username" = JStr u -> u <> [] ->
  field (req_body req) "email" = JStr e -> e <> [] ->
  field (req_body req) "password" = JStr p -> p <> [] ->
  truthy (JWT_SECRET env) = true ->
  db_fault env (checkUserQuery e u) = None ->
  db_fault env
    (insertUserQuery u e (bcrypt_hash p SALT_ROUNDS (salt_entropy env))) = None ->
  filter (check_user_where e u) (registered_users (db w)) = [] ->
  bcrypt_compare p (bcrypt_hash p SALT_ROUNDS (salt_entropy env)) = true ->
  sql_text_eq e e = true ->
  field (req_body req2) "email" = JStr e ->
  field (req_body req2) "password" = JStr p ->
  db_fault env2 (selectUserQuery e) = None ->
  truthy (JWT_SECRET env2) = true ->
  exists token,
    fst (app env2 POST_login req2 (snd (app env POST_register req w))) =
      Normal {| status := 200;
                body := JsonObj
                  [("message"%string, JsonStr (js "Login successful"));
                   ("token"%string, JsonStr token);
                   ("user"%string, JsonObj
                      [("id"%string, JsonNum (registered_users_next (db w)));
                       ("username"%string, JsonStr u);
                       ("email"%string, JsonStr e)])] |} /\
    forall now, now / 1000 < Date_now env2 / 1000 + expiresIn_24h ->
      exists c, jwt_verify token (JWT_SECRET env2) now = inr c /\
                userId c = registered_users_next (db w) /\
                username c = u.
Proof.
  intros Hu Hu0 He He0 Hp Hp0 Hk Hq1 Hq2 Hfresh Hbcrypt Hrefl He2 Hp2 Hq3 Hk2.
  set (row := {| user_id_col := registered_users_next (db w);
                 user_username := u; user_email := e;
                 user_password_hash :=
                   bcrypt_hash p SALT_ROUNDS (salt_entropy env) |}).
  assert (filter (select_user_where e)
            (registered_users (db (snd (app env POST_register req w))))
          = [row]) as Hm.
  { rewrite (register_fresh_run req w u e p) by assumption.
    cbn [exec snd registered_users]. rewrite filter_app.
    rewrite filter_none.
    - cbn [filter app]. unfold select_user_where. cbn [user_email].
      now rewrite Hrefl.
    - intros a Ha. apply filter_nil_all in Hfresh.
      rewrite Forall_forall in Hfresh. specialize (Hfresh a Ha).
      unfold check_user_where in Hfresh. apply orb_false_iff in Hfresh.
      unfold select_user_where. tauto. }
  eexists. split.
  - apply (login_accepts env2 req2 _ e p row []); assumption.
  - intros now Hnow. eexists.
    split; [now apply (issued_claims_verify _ _ (Date_now env2))|].
    split; reflexivity.
Qed.
End RegisterThenLogin.

(** ** What a request does to the outside *)

Section Effects.
Context {P : Platform}.
Variable env : Env.

Lemma register_effects (req : Request) (w : World) :
  exists l, effects (snd (register env req w)) = effects w ++ l /\
            (List.length l <= 2)%nat /\ forall fr, ~ In (EvFetch fr) l.
Proof.
  unfold register.
  destruct (negb (truthy (field (req_body req) "username")) || _ || _).
  { exists []. rewrite app_nil_r. repeat split; [simpl; lia|intros fr []]. }
  unfold try_catch, bind.
  match goal with |- context [db_query env ?q w] =>
    destruct (db_query_cases env q w) as [[e1 [_ ->]]|[_ ->]]
  end.
  { eexists. split; [reflexivity|]. split; [simpl; lia|].
    intros fr [H|[]]. discriminate. }
  cbn [fst snd].
  match goal with |- context [Nat.ltb 0 ?n] => destruct (Nat.ltb 0 n) end.
  { eexists. split; [reflexivity|]. split; [simpl; lia|].
    intros fr [H|[]]. discriminate. }
  match goal with |- context [db_query env ?q ?w0] =>
    destruct (db_query_cases env q w0) as [[e2 [_ ->]]|[_ ->]]
  end.
  { eexists. cbn [snd ret record_event effects]. rewrite <- app_assoc.
    split; [reflexivity|]. split; [simpl; lia|].
    intros fr [H|[H|[]]]; discriminate. }
  cbn [fst snd].
  match goal with |- context [lift ?s] => destruct s end;
    cbn [lift throw ret snd effects]; rewrite <- app_assoc;
    (eexists; split; [reflexivity|]; split; [simpl; lia|];
     intros fr [H|[H|[]]]; discriminate).
Qed.

Lemma login_effects (req : Request) (w : World) :
  exists l, effects (snd (login env req w)) = effects w ++ l /\
            (List.length l <= 2)%nat /\ forall fr, ~ In (EvFetch fr) l.
Proof.
  unfold login.
  destruct (negb (truthy (field (req_body req) "email")) || _).
  { exists []. rewrite app_nil_r. repeat split; [simpl; lia|intros fr []]. }
  unfold try_catch, bind.
  match goal with |- context [db_query env ?q w] =>
    destruct (db_query_cases env q w) as [[e1 [_ ->]]|[_ ->]]
  end.
  { eexists. split; [reflexivity|]. split; [simpl; lia|].
    intros fr [H|[]]. discriminate. }
  cbn [fst snd].
  destruct (exec _ _ _) as [[|user others] d0]; cbn [fst].
  { eexists. split; [reflexivity|]. split; [simpl; lia|].
    intros fr [H|[]]. discriminate. }
  match goal with |- context [db_query_detached env ?q ?w0] =>
    destruct (db_query_detached_run env q w0) as [d [-> _]]
  end.
  cbn [effects]. rewrite <- app_assoc.
  destruct (negb _).
  { eexists. split; [reflexivity|]. split; [simpl; lia|].
    intros fr [H|[H|[]]]; discriminate. }
  match goal with |- context [lift ?s] => destruct s end;
    cbn [lift throw ret snd effects];
    (eexists; split; [reflexivity|]; split; [simpl; lia|];
     intros fr [H|[H|[]]]; discriminate).
Qed.

Lemma generate_prompt_effects (user : Claims) (req : Request) (w : World) :
  effects (snd (generate_prompt env user req w)) = effects w \/
  exists fr,
    effects (snd (generate_prompt env user req w)) = effects w ++ [EvFetch fr] \/
    exists q,
      effects (snd (generate_prompt env user req w)) =
        effects w ++ [EvFetch fr; EvQuery q].
Proof.
  unfold generate_prompt.
  destruct (negb (truthy (field (req_body req) "idea")) || _); [now left|].
  right. unfold try_catch, bind.
  match goal with |- context [generateAIPrompt env ?i ?c w] =>
    pose proof (generateAIPrompt_effects env i c w) as Hg;
    exists (gemini_request env i c);
    destruct (generateAIPrompt env i c w) as [[g|e] w1]
  end; cbn [snd] in Hg; subst w1; [|now left].
  right.
  match goal with |- context [db_query env ?q ?w0] =>
    exists q; destruct (db_query_cases env q w0) as [[e2 [_ ->]]|[_ ->]]
  end; cbn [snd ret record_event effects]; now rewrite <- app_assoc.
Qed.

Lemma single_query_effects (user : Claims) (req : Request) (w : World) :
  (exists q, effects (snd (get_prompts env user req w)) = effects w ++ [EvQuery q]) /\
  (exists q, effects (snd (delete_prompt env user req w)) = effects w ++ [EvQuery q]).
Proof.
  split.
  - unfold get_prompts, try_catch, bind.
    match goal with |- context [db_query env ?q w] =>
      exists q; destruct (db_query_cases env q w) as [[e1 [_ ->]]|[_ ->]]
    end; reflexivity.
  - unfold delete_prompt, try_catch, bind.
    match goal with |- context [db_query env ?q w] =>
      exists q; destruct (db_query_cases env q w) as [[e1 [_ ->]]|[_ ->]]
    end; [reflexivity|].
    cbn [fst snd]. destruct (affectedRows _ =? 0); reflexivity.
Qed.

(** X20. Who contacts the generation endpoint.  A request adds at most
    two effects to the trace.  Health, register, login, list and delete
    never contact the endpoint.  Generate-prompt contacts it only behind
    a valid token, once, and before any statement is sent to the
    database.  The test route contacts it once for every request,
    whatever the request carries: it is mounted without the
    middleware. *)
Theorem endpoint_contacts (r : Route) (req : Request) (w : World) :
  exists l,
    effects (snd (app env r req w)) = effects w ++ l /\
    (List.length l <= 2)%nat /\
    (forall fr, In (EvFetch fr) l ->
       ((r = POST_generate_prompt /\
         exists user, authenticateToken env req = inr user) \/
        r = GET_test_gemini) /\
       exists rest, l = EvFetch fr :: rest /\
                    forall fr', ~ In (EvFetch fr') rest) /\
    (r = GET_test_gemini -> l = [EvFetch (test_request env)]).
Proof.
  destruct r; unfold app, protected.
  - exists []. rewrite app_nil_r. split; [reflexivity|].
    split; [simpl; lia|]. split; [intros fr []|discriminate].
  - exists [EvFetch (test_request env)]. rewrite test_gemini_effects.
    split; [reflexivity|]. split; [simpl; lia|]. split; [|reflexivity].
    intros fr [Hin|[]]. injection Hin as <-. split; [now right|].
    exists []. split; [reflexivity|]. intros fr' [].
  - destruct (register_effects req w) as [l [Hl [Hlen Hno]]].
    exists l. split; [exact Hl|]. split; [exact Hlen|].
    split; [|discriminate]. intros fr Hin. now apply Hno in Hin.
  - destruct (login_effects req w) as [l [Hl [Hlen Hno]]].
    exists l. split; [exact Hl|]. split; [exact Hlen|].
    split; [|discriminate]. intros fr Hin. now apply Hno in Hin.
  - destruct (authenticateToken env req) as [res|user].
    { exists []. rewrite app_nil_r. split; [reflexivity|].
      split; [simpl; lia|]. split; [intros fr []|discriminate]. }
    destruct (generate_prompt_effects user req w) as [H|[fr [H|[q H]]]].
    + exists []. rewrite app_nil_r. split; [exact H|].
      split; [simpl; lia|]. split; [intros fr []|discriminate].
    + exists [EvFetch fr]. split; [exact H|]. split; [simpl; lia|].
      split; [|discriminate].
      intros fr0 [Hin|[]]. injection Hin as <-.
      split; [left; split; [reflexivity|now exists user]|].
      exists []. split; [reflexivity|]. intros fr' [].
    + exists [EvFetch fr; EvQuery q]. split; [exact H|]. split; [simpl; lia|].
      split; [|discriminate].
      intros fr0 [Hin|[Hin|[]]]; [|discriminate]. injection Hin as <-.
      split; [left; split; [reflexivity|now exists user]|].
      exists [EvQuery q]. split; [reflexivity|].
      intros fr' [Hq|[]]. discriminate.
  - destruct (authenticateToken env req) as [res|user].
    { exists []. rewrite app_nil_r. split; [reflexivity|].
      split; [simpl; lia|]. split; [intros fr []|discriminate]. }
    destruct (single_query_effects user req w) as [[q H] _].
    exists [EvQuery q]. split; [exact H|]. split; [simpl; lia|].
    split; [|discriminate]. intros fr [Hin|[]]. discriminate.
  - destruct (authenticateToken env req) as [res|user].
    { exists []. rewrite app_nil_r. split; [reflexivity|].
      split; [simpl; lia|]. split; [intros fr []|discriminate]. }
    destruct (single_query_effects user req w) as [_ [q H]].
    exists [EvQuery q]. split; [exact H|]. split; [simpl; lia|].
    split; [|discriminate]. intros fr [Hin|[]]. discriminate.
Qed.
End Effects.

(** ** The further properties on the scenario *)

Lemma register_missing_field_witness :
  app (P := reference_platform) sample_env POST_register no_password_request
      (start ann_db)
  = (Normal (error_response 400 "All fields are required"), start ann_db).
Proof.
  apply (register_missing_field (P := reference_platform) sample_env
           no_password_request (start ann_db)).
  right. right. reflexivity.
Defined.

Lemma login_missing_field_witness :
  app (P := reference_platform) sample_env POST_login no_password_request
      (start ann_db)
  = (Normal (error_response 400 "Email and password are required"),
     start ann_db).
Proof.
  apply (login_missing_field (P := reference_platform) sample_env
           no_password_request (start ann_db)).
  right. reflexivity.
Defined.

Lemma login_outcome_witness :
  (exists token r c,
     fst (app (P := reference_platform) sample_env POST_login ann_login
              (start ann_db)) = Normal r /\
     status r = 200 /\
     jwt_verify (P := reference_platform) token (JWT_SECRET sample_env)
                (Date_now one_hour_later) = inr c /\
     userId c = 1) /\
  fst (app (P := reference_platform) sample_env POST_login ann_wrong_password
           (start ann_db))
  = Normal (error_response 401 "Invalid credentials").
Proof.
  split.
  - assert (js "a@x.com" <> []) as He by discriminate.
    assert (js "pw12345" <> []) as Hp by discriminate.
    destruct (login_outcome (P := reference_platform) sample_env ann_login
                (start ann_db) (js "a@x.com") (js "pw12345")
                eq_refl He eq_refl Hp eq_refl eq_refl) as [Hok _].
    destruct (Hok ann_row [] eq_refl eq_refl) as [token [Hrun Hverify]].
    destruct (Hverify (Date_now one_hour_later) eq_refl) as [c [Hc [Hid _]]].
    exists token. eexists. exists c.
    split; [exact Hrun|]. split; [reflexivity|]. split; [exact Hc|exact Hid].
  - assert (js "a@x.com" <> []) as He by discriminate.
    assert (js "guess" <> []) as Hp by discriminate.
    destruct (login_outcome (P := reference_platform) sample_env
                ann_wrong_password (start ann_db) (js "a@x.com") (js "guess")
                eq_refl He eq_refl Hp eq_refl eq_refl) as [_ Hbad].
    apply Hbad. right. exists ann_row, []. split; reflexivity.
Defined.

Lemma register_without_secret_witness :
  exists w',
    app (P := reference_platform) no_secret_env POST_register bob_request
        (start ann_db)
    = (Normal (error_response 500 "Server error during registration"), w') /\
    List.length (registered_users (db w')) = 2%nat.
Proof.
  assert (js "bob" <> []) as Hu by discriminate.
  assert (js "b@x.com" <> []) as He by discriminate.
  assert (js "hunter2" <> []) as Hp by discriminate.
  destruct (register_without_secret (P := reference_platform) no_secret_env
              bob_request (start ann_db) (js "bob") (js "b@x.com")
              (js "hunter2") eq_refl Hu eq_refl He eq_refl Hp
              eq_refl eq_refl eq_refl eq_refl) as [w' [Hrun Husers]].
  exists w'. split; [exact Hrun|]. now rewrite Husers.
Defined.

Lemma generate_prompt_stores_witness :
  exists w',
    app (P := reference_platform) sample_env POST_generate_prompt
        generate_request (start ann_db)
    = (Normal {| status := 200;
                 body := JsonObj
                   [("success"%string, JsonBool true);
                    ("id"%string, JsonNum 1);
                    ("prompt"%string, JsonStr (js "Write a travel blog."))] |},
       w') /\
    List.length (prompts (db w')) = 1%nat.
Proof.
  assert (trim (js " a travel blog ") <> []) as Hidea by discriminate.
  destruct (generate_prompt_stores (P := reference_platform) sample_env
              generate_request (start ann_db) ann_claims
              (js " a travel blog ") (js "Write a travel blog.")
              eq_refl eq_refl Hidea eq_refl eq_refl)
    as [w' [Hrun [Hrows _]]].
  exists w'. split; [exact Hrun|]. now rewrite Hrows.
Defined.

Lemma generate_prompt_upstream_failure_witness :
  snd (app (P := reference_platform) upstream_down POST_generate_prompt
           generate_request (start ann_db))
  = {| db := ann_db;
       effects := [EvFetch (gemini_request upstream_down (js "a travel blog")
                                           (js "General"))] |}.
Proof.
  assert (trim (js " a travel blog ") <> []) as Hidea by discriminate.
  now rewrite (generate_prompt_upstream_failure (P := reference_platform)
                 upstream_down generate_request (start ann_db) ann_claims
                 (js " a travel blog ")
                 {| message := js "Gemini API request failed: 503" |}
                 eq_refl eq_refl Hidea eq_refl).
Defined.

Lemma mediator_failures_witness :
  fst (generateAIPrompt (P := reference_platform) upstream_empty
         (js "a travel blog") (js "General") (start ann_db))
  = Thrown {| message := js "No valid response generated from Gemini API" |} /\
  fst (generateAIPrompt (P := reference_platform) upstream_number
         (js "a travel blog") (js "General") (start ann_db))
  = Thrown (not_a_function (Platform := reference_platform)).
Proof.
  split.
  - destruct (mediator_failures (P := reference_platform) upstream_empty
                (js "a travel blog") (js "General") (start ann_db))
      as [_ [_ [Hempty _]]].
    exact (Hempty 200 []
                  (Some {| candidates := Some []; usageMetadata := None |})
                  eq_refl eq_refl (or_introl eq_refl)).
  - destruct (mediator_failures (P := reference_platform) upstream_number
                (js "a travel blog") (js "General") (start ann_db))
      as [_ [_ [_ Hother]]].
    assert (JsonNum 5 <> JsonNull) as Hnull by discriminate.
    assert (forall s, JsonNum 5 <> JsonStr s) as Hstr
      by (intros s; discriminate).
    exact (Hother 200 [] _ (JsonNum 5) eq_refl eq_refl eq_refl Hnull Hstr).
Defined.

Lemma delete_own_prompt_witness :
  exists w',
    app (P := reference_platform) sample_env DELETE_prompt
        (bearer ann_token [] (js "3")) (start prompts_db)
    = (Normal {| status := 200;
                 body := JsonObj
                   [("message"%string,
                     JsonStr (js "Prompt deleted successfully"))] |}, w') /\
    ~ In (prompt_row 3 1 1699999000)
         (fst (exec (P := reference_platform) 1700000000
                    (selectPromptsQuery 1) (db w'))).
Proof.
  destruct (delete_own_prompt (P := reference_platform) sample_env
              (bearer ann_token [] (js "3")) (start prompts_db) ann_claims
              (prompt_row 3 1 1699999000) eq_refl eq_refl
              (or_intror (or_intror (or_introl eq_refl))) eq_refl eq_refl)
    as [w' [Hrun [_ [_ [_ Hgone]]]]].
  exists w'. split; [exact Hrun|]. apply Hgone.
Defined.

Lemma other_users_prompts_untouched_witness :
  filter (select_prompts_where 2)
         (prompts (db (snd (app (P := reference_platform) sample_env
                                DELETE_prompt (bearer ann_token [] (js "2"))
                                (start prompts_db)))))
  = [prompt_row 2 2 1699995000].
Proof.
  assert (authenticateToken (P := reference_platform) sample_env
            (bearer ann_token [] (js "2")) = inr ann_claims) as Ha
    by reflexivity.
  rewrite (other_users_prompts_untouched (P := reference_platform) sample_env
             DELETE_prompt (bearer ann_token [] (js "2")) (start prompts_db) 2).
  - reflexivity.
  - intros user H. rewrite Ha in H. injection H as <-. discriminate.
Defined.

Lemma ids_stay_distinct_witness :
  NoDup (map prompt_id
             (prompts (db (snd (app (P := reference_platform) sample_env
                                    POST_generate_prompt generate_request
                                    (start prompts_db)))))).
Proof.
  destruct (ids_stay_distinct (P := reference_platform) sample_env
              POST_generate_prompt generate_request (start prompts_db))
    as [_ [[_ Hprompts] _]].
  - split; [repeat constructor|].
    repeat constructor. intros [].
  - split; [repeat constructor|].
    repeat constructor; simpl; intuition discriminate.
  - split; constructor.
  - exact Hprompts.
Defined.

Lemma identities_stay_distinct_witness :
  ForallOrdPairs
    (fun older newer =>
       check_user_where (P := reference_platform)
         (user_email newer) (user_username newer) older = false)
    (registered_users
       (db (serve_in_turn (P := reference_platform)
              [(sample_env, POST_register, bob_request);
               (one_hour_later, POST_register, second_ann_request);
               (one_hour_later, POST_login, bob_login)]
              (start ann_db)))).
Proof.
  apply (identities_stay_distinct (P := reference_platform)
           [(sample_env, POST_register, bob_request);
            (one_hour_later, POST_register, second_ann_request);
            (one_hour_later, POST_login, bob_login)]
           (start ann_db)).
  constructor; constructor.
Defined.

Lemma scheme_is_not_checked_witness :
  authenticateToken (P := reference_platform) sample_env token_scheme_request
  = inr ann_claims.
Proof.
  destruct (reference_compact ann_claims (js "s3cret")) as [_ Hnospace].
  assert (~ In 32 (js "Token")) as Hscheme by (cbv; intuition discriminate).
  rewrite (scheme_is_not_checked (P := reference_platform) sample_env
             (bearer ann_token [] []) token_scheme_request
             (js "Token") ann_token (js "and more") Hscheme Hnospace eq_refl
             (or_intror eq_refl)).
  reflexivity.
Defined.

Lemma generate_prompt_400_only_blank_witness :
  forallb is_js_space [32; 9] = true.
Proof.
  exact (generate_prompt_400_only_blank (P := reference_platform) sample_env
           (bearer ann_token [("idea"%string, JStr [32; 9])] [])
           (start ann_db) ann_claims
           (error_response 400 "Idea is required and cannot be empty")
           [32; 9] eq_refl eq_refl eq_refl eq_refl).
Defined.

Lemma registered_user_can_log_in_witness :
  exists token r,
    fst (app (P := reference_platform) one_hour_later POST_login bob_login
             (snd (app (P := reference_platform) sample_env POST_register
                       bob_request (start ann_db)))) = Normal r /\
    status r = 200 /\
    exists c, jwt_verify (P := reference_platform) token
                (JWT_SECRET one_hour_later) (Date_now one_hour_later) = inr c /\
              userId c = 2.
Proof.
  assert (js "bob" <> []) as Hu by discriminate.
  assert (js "b@x.com" <> []) as He by discriminate.
  assert (js "hunter2" <> []) as Hp by discriminate.
  destruct (registered_user_can_log_in (P := reference_platform) sample_env
              bob_request (start ann_db) (js "bob") (js "b@x.com")
              (js "hunter2") one_hour_later bob_login
              eq_refl Hu eq_refl He eq_refl Hp eq_refl eq_refl eq_refl
              eq_refl eq_refl eq_refl eq_refl eq_refl eq_refl eq_refl)
    as [token [Hrun Hverify]].
  destruct (Hverify (Date_now one_hour_later) eq_refl) as [c [Hc [Hid _]]].
  exists token. eexists. split; [exact Hrun|]. split; [reflexivity|].
  exists c. split; [exact Hc|exact Hid].
Defined.

Lemma generated_prompt_is_listed_witness :
  exists rows first,
    fst (app (P := reference_platform) one_hour_later GET_prompts
             (bearer ann_token [] [])
             (snd (app (P := reference_platform) sample_env
                       POST_generate_prompt generate_request
                       (start prompts_db))))
    = Normal {| status := 200; body := JsonArr (map prompt_json rows) |} /\
    nth_error rows 0 = Some first /\ prompt_id first = 4 /\
    List.length rows = 3%nat.
Proof.
  assert (trim (js " a travel blog ") <> []) as Hidea by discriminate.
  destruct (generated_prompt_is_listed (P := reference_platform) sample_env
              generate_request (start prompts_db) ann_claims
              (js " a travel blog ") (js "Write a travel blog.")
              one_hour_later (bearer ann_token [] []) ann_claims
              eq_refl eq_refl Hidea eq_refl eq_refl eq_refl eq_refl)
    as [rows [Hrun [Hsame _]]].
  destruct (Hsame eq_refl) as [_ Hhead].
  assert (Forall (fun p => prompt_created_at p < Date_now sample_env / 1000)
            (filter (select_prompts_where (userId ann_claims))
                    (prompts (db (start prompts_db))))) as Hold
    by (repeat constructor).
  specialize (Hhead Hold).
  exists rows. eexists. split; [exact Hrun|]. rewrite Hhead.
  split; [reflexivity|]. split; reflexivity.
Defined.

Lemma endpoint_contacts_witness :
  effects (snd (app (P := reference_platform) sample_env GET_test_gemini
                    ann_request (start ann_db)))
  = [EvFetch (test_request sample_env)].
Proof.
  destruct (endpoint_contacts (P := reference_platform) sample_env
              GET_test_gemini ann_request (start ann_db))
    as [l [Hl [_ [_ Htest]]]].
  rewrite Hl, (Htest eq_refl). reflexivity.
Defined.
